(** * Expense bot: the expense-message processing pipeline

    A shallow embedding of [bot-service/service.py], [bot-service/repository.py]
    and [bot-service/constants.py], and the properties of the pipeline
    (authorization gate, extractor, validation, store) stated over it.

    Conventions of the embedding.
    - A Python [str] is a [string]; each [ascii] stands for one code point
      below 256.
    - A Python [int] is a [Z]; a Python [float] is a binary64 value, a
      [spec_float] with precision 53 and maximal exponent 1024.
    - A PostgreSQL [numeric] is an exact rational, a [Q].
    - Exceptions are explicit: a computation returns [Ok v] or [Raise e].
    - The database, the clock and the language-model backend form the
      [world]; code that talks to them is written in the monad [M].
    - Calls to [logger] only format constant templates and write to the log;
      they are left out. *)

From Stdlib Require Import ZArith QArith Ascii String List Bool Lia.
From Stdlib Require Import Floats.SpecFloat.
From Stdlib Require Import DecimalString.
From stdpp Require Import base option list sorting gmap strings.

#[local] Set Warnings "-register-all".

Local Open Scope Z_scope.
Local Open Scope string_scope.

(** ** Python values *)

Module Py.

(** The exception classes that the modelled operations raise.  All of them
    derive from [Exception]; [SQLAlchemyError] is the base class of every
    error that SQLAlchemy raises for the driver or the server. *)
Inductive exn : Type :=
| ConnectionError
| TimeoutError
| JSONDecodeError
| RecursionError
| AttributeError
| TypeError
| ValueError
| OverflowError
| SQLAlchemyError.

Inductive exn_class : Type :=
| ClsException
| ClsSQLAlchemyError.

(** [isinstance(e, cls)]. *)
Definition isinstance (e : exn) (cls : exn_class) : bool :=
  match cls with
  | ClsException => true
  | ClsSQLAlchemyError =>
      match e with SQLAlchemyError => true | _ => false end
  end.

Inductive result (A : Type) : Type :=
| Ok (a : A)
| Raise (e : exn).
Arguments Ok {A} a.
Arguments Raise {A} e.

(** binary64 *)
Definition prec : Z := 53.
Definition emax : Z := 1024.
Definition float0 : spec_float := S754_zero false.
Definition float1 : spec_float := S754_finite false 4503599627370496 (-52).
Definition float_nan : spec_float := S754_nan.

(** The values [json.loads] produces: [None], [bool], [int], [float], [str],
    [list] and [dict] with string keys.  A dict is kept as its items in
    insertion order. *)
Inductive pyval : Type :=
| PyNone
| PyBool (b : bool)
| PyInt (z : Z)
| PyFloat (f : spec_float)
| PyStr (s : string)
| PyList (l : list pyval)
| PyDict (items : list (string * pyval)).

Definition pydict : Type := list (string * pyval).

(** [d.get(key, default)] *)
Fixpoint dict_get (d : pydict) (key : string) (default : pyval) : pyval :=
  match d with
  | [] => default
  | (k, v) :: d' => if String.eqb k key then v else dict_get d' key default
  end.

(** [key in d] *)
Fixpoint dict_has (d : pydict) (key : string) : bool :=
  match d with
  | [] => false
  | (k, _) :: d' => if String.eqb k key then true else dict_has d' key
  end.

(** [x.get(key, default)]: only a dict has the method. *)
Definition py_get (x : pyval) (key : string) (default : pyval) : result pyval :=
  match x with
  | PyDict d => Ok (dict_get d key default)
  | _ => Raise AttributeError
  end.

(** [bool(x)], the truth value used by [not x] and [if x]. *)
Definition truthy (x : pyval) : bool :=
  match x with
  | PyNone => false
  | PyBool b => b
  | PyInt z => negb (Z.eqb z 0)
  | PyFloat f =>
      match f with
      | S754_zero _ => false
      | _ => true
      end
  | PyStr s => negb (String.eqb s "")
  | PyList l => match l with [] => false | _ => true end
  | PyDict d => match d with [] => false | _ => true end
  end.

(** [x <= 0] with the int literal [0] on the right. *)
Definition py_le_zero (x : pyval) : result bool :=
  match x with
  | PyBool b => Ok (negb b)
  | PyInt z => Ok (Z.leb z 0)
  | PyFloat f => Ok (SFleb f float0)
  | PyNone | PyStr _ | PyList _ | PyDict _ => Raise TypeError
  end.

(** [float(n)] for an int: the nearest binary64, ties to even;
    [OverflowError] when the int is too large. *)
Definition float_of_int (z : Z) : result spec_float :=
  match binary_normalize prec emax z 0 false with
  | S754_infinity _ => Raise OverflowError
  | f => Ok f
  end.

(** [float(d)] for a numeric read back from the database as a [Decimal]:
    the nearest binary64 of the exact value. *)
Definition float_of_numeric (q : Q) : spec_float :=
  match Qnum q with
  | Z0 => float0
  | Zpos n => SFdiv prec emax (S754_finite false n 0) (S754_finite false (Qden q) 0)
  | Zneg n => SFdiv prec emax (S754_finite true n 0) (S754_finite false (Qden q) 0)
  end.

(** [a + b] on floats. *)
Definition float_add (a b : spec_float) : spec_float := SFadd prec emax a b.

End Py.
Export Py.

(** ** Text operations of the extractor *)

Module Text.

Definition open_brace : ascii := "{"%char.
Definition close_brace : ascii := "}"%char.

(** The text after the first ["{"], if there is one. *)
Fixpoint after_open (s : string) : option string :=
  match s with
  | EmptyString => None
  | String c s' => if Ascii.eqb c open_brace then Some s' else after_open s'
  end.

(** The shortest prefix that ends with ["}"], if there is one. *)
Fixpoint upto_close (s : string) : option string :=
  match s with
  | EmptyString => None
  | String c s' =>
      if Ascii.eqb c close_brace then Some (String c EmptyString)
      else match upto_close s' with
           | Some m => Some (String c m)
           | None => None
           end
  end.

(** [re.search(r'\{[\s\S]*?\}', content)]: [None] or the text of group 0.
    The search takes the leftmost ["{"] from which the pattern matches,
    and the lazy [*?] stops at the first ["}"] after it.  When no ["}"]
    follows the first ["{"], none follows a later one either. *)
Definition re_search_json (content : string) : option string :=
  match after_open content with
  | None => None
  | Some rest =>
      match upto_close rest with
      | Some m => Some (String open_brace m)
      | None => None
      end
  end.

(** [c.isspace()] for the code points below 256. *)
Definition isspace (c : ascii) : bool :=
  let n := N_of_ascii c in
  ((9 <=? n) && (n <=? 13) || (28 <=? n) && (n <=? 32)
   || (n =? 133) || (n =? 160))%N.

Fixpoint lstrip (s : string) : string :=
  match s with
  | EmptyString => EmptyString
  | String c s' => if isspace c then lstrip s' else s
  end.

Fixpoint rstrip (s : string) : string :=
  match s with
  | EmptyString => EmptyString
  | String c s' =>
      match rstrip s' with
      | EmptyString => if isspace c then EmptyString else String c EmptyString
      | r => String c r
      end
  end.

(** [s.strip()] *)
Definition strip (s : string) : string := rstrip (lstrip s).

(** The text handed to [json.loads] (service.py, lines 80-84). *)
Definition json_str (content : string) : string :=
  match re_search_json content with
  | Some m => m
  | None => strip content
  end.

(** The region the specification describes: from the first ["{"] up to the
    ["}"] that brings the brace depth back to zero.  [balanced_upto depth s]
    scans [s] with [depth] braces open. *)
Fixpoint balanced_upto (depth : nat) (s : string) : option string :=
  match s with
  | EmptyString => None
  | String c s' =>
      if Ascii.eqb c open_brace then
        option_map (String c) (balanced_upto (S depth) s')
      else if Ascii.eqb c close_brace then
        match depth with
        | O => Some (String c EmptyString)
        | S d => option_map (String c) (balanced_upto d s')
        end
      else option_map (String c) (balanced_upto depth s')
  end.

Definition spec_first_balanced_region (content : string) : option string :=
  match after_open content with
  | None => None
  | Some rest => option_map (String open_brace) (balanced_upto 0 rest)
  end.

Definition spec_json_str (content : string) : string :=
  match spec_first_balanced_region content with
  | Some m => m
  | None => strip content
  end.

End Text.
Export Text.

(** ** The world: database, clock and language-model backend *)

Module World.

(** A row of [users(id, telegram_id)]. *)
Record user_row : Type := UserRow {
  u_id : Z;
  u_telegram_id : string
}.

(** A row of [expenses(user_id, description, amount, category, added_at)];
    [None] in a column is SQL NULL. *)
Record expense_row : Type := ExpenseRow {
  e_user_id : Z;
  e_description : option string;
  e_amount : Q;
  e_category : option string;
  e_added_at : option Z
}.

(** - [users], [expenses]: the committed tables;
    - [db_faults]: for each coming round trip to the database (opening a
      connection, executing a statement, committing), whether it fails;
      a fault surfaces as a [SQLAlchemyError]; no fault once the list is
      used up;
    - [utcnow]: the value of [datetime.utcnow()];
    - [llm]: the backend, a completion text or a failure for each message;
    - [llm_calls]: the messages sent to the backend so far, latest first. *)
Record world : Type := MkWorld {
  users : list user_row;
  expenses : list expense_row;
  db_faults : list bool;
  utcnow : Z;
  llm : string -> result string;
  llm_calls : list string
}.

(** Computations that may read and change the world and may raise. *)
Definition M (A : Type) : Type := world -> result A * world.

Definition ret {A : Type} (a : A) : M A := fun w => (Ok a, w).

Definition bind {A B : Type} (c : M A) (k : A -> M B) : M B :=
  fun w =>
    match c w with
    | (Ok a, w') => k a w'
    | (Raise e, w') => (Raise e, w')
    end.

Definition lift {A : Type} (r : result A) : M A := fun w => (r, w).

Definition get_world : M world := fun w => (Ok w, w).

(** [try: body  except cls as e: handler(e)] *)
Definition try_except {A : Type} (cls : exn_class) (body : M A)
    (handler : exn -> M A) : M A :=
  fun w =>
    match body w with
    | (Ok a, w') => (Ok a, w')
    | (Raise e, w') =>
        if isinstance e cls then handler e w' else (Raise e, w')
    end.

Declare Scope py_scope.
Delimit Scope py_scope with py.
Notation "x <- c ;; k" := (bind c (fun x => k))
  (at level 20, c at level 99, k at level 200, only parsing) : py_scope.
Notation "c ;; k" := (bind c (fun _ => k))
  (at level 100, k at level 200, right associativity, only parsing) : py_scope.

Local Open Scope py_scope.

Definition with_db_faults (faults : list bool) (w : world) : world :=
  MkWorld (users w) (expenses w) faults (utcnow w) (llm w) (llm_calls w).

(** One round trip to the database. *)
Definition db_round_trip : M unit :=
  fun w =>
    match db_faults w with
    | [] => (Ok tt, w)
    | fault :: rest =>
        if fault then (Raise SQLAlchemyError, with_db_faults rest w)
        else (Ok tt, with_db_faults rest w)
    end.

(** Whether one of the next [n] round trips fails. *)
Definition faulty (n : nat) (w : world) : bool :=
  existsb (fun fault => fault) (take n (db_faults w)).

(** An open connection: the rows inserted and not yet committed.  They are
    dropped with the connection unless [conn_commit] runs. *)
Definition connection : Type := list expense_row.

(** [self.engine.connect()] *)
Definition engine_connect : M connection :=
  db_round_trip ;; ret [].

(** [conn.commit()] *)
Definition conn_commit (conn : connection) : M unit :=
  db_round_trip ;;
  fun w =>
    (Ok tt, MkWorld (users w) (expenses w ++ conn)%list (db_faults w)
                    (utcnow w) (llm w) (llm_calls w)).

(** [datetime.utcnow()] *)
Definition datetime_utcnow : M Z :=
  w <- get_world ;; ret (utcnow w).

(** [await self.llm.ainvoke(messages)] followed by [response.content]; the
    system part of [messages] is the constant [EXPENSE_ANALYSIS_PROMPT]. *)
Definition asked (message : string) (w : world) : world :=
  MkWorld (users w) (expenses w) (db_faults w) (utcnow w) (llm w)
          (message :: llm_calls w).

Definition llm_ainvoke (message : string) : M string :=
  fun w => (llm w message, asked message w).

End World.
Export World.

(** ** repository.py *)

Module Repository.

Local Open Scope py_scope.

(** [QUERIES["CHECK_USER_WHITELIST"]]:
    [SELECT id FROM users WHERE telegram_id = :telegram_id] *)
Definition CHECK_USER_WHITELIST (tbl : list user_row) (telegram_id : string)
    : list Z :=
  map u_id (filter (fun u => String.eqb (u_telegram_id u) telegram_id) tbl).

Definition execute_CHECK_USER_WHITELIST (telegram_id : string) : M (list Z) :=
  db_round_trip ;;
  w <- get_world ;;
  ret (CHECK_USER_WHITELIST (users w) telegram_id).

(** [result.fetchone()] *)
Definition fetchone {A : Type} (rows : list A) : option A := head rows.

Definition is_user_whitelisted (telegram_id : string) : M bool :=
  try_except ClsSQLAlchemyError
    (conn <- engine_connect ;;
     result <- execute_CHECK_USER_WHITELIST telegram_id ;;
     ret (match fetchone result with Some _ => true | None => false end))
    (fun e => ret false).

Definition get_user_id (telegram_id : string) : M (option Z) :=
  try_except ClsSQLAlchemyError
    (conn <- engine_connect ;;
     result <- execute_CHECK_USER_WHITELIST telegram_id ;;
     let user := fetchone result in
     ret (match user with Some id => Some id | None => None end))
    (fun e => ret None).

(** The id that [fetchone] gives for [telegram_id], if it gives one. *)
Definition resolved_id (w : world) (telegram_id : string) : option Z :=
  fetchone (CHECK_USER_WHITELIST (users w) telegram_id).

(** [not user_id] for an [Optional[int]] *)
Definition not_user_id (user_id : option Z) : bool :=
  match user_id with
  | None => true
  | Some id => Z.eqb id 0
  end.

Section Driver.

(** What the database driver and the server make of a Python parameter
    bound to a [text] column and to the [numeric] column.  They are not
    part of the repository.  A parameter the driver or the server refuses
    is a fault of the round trip. *)
Variable adapt_text : pyval -> option string.
Variable adapt_numeric : pyval -> Q.

(** [conn.execute(text(QUERIES["INSERT_EXPENSE"]), {...})] *)
Definition execute_INSERT_EXPENSE (conn : connection) (user_id : Z)
    (description amount category : pyval) (added_at : Z) : M connection :=
  db_round_trip ;;
  ret (conn ++ [ExpenseRow user_id (adapt_text description)
                           (adapt_numeric amount) (adapt_text category)
                           (Some added_at)])%list.

(** Past the test [if not user_id], [user_id] is an int that is not [0]:
    [default 0 user_id] is that int. *)
Definition save_expense (telegram_id : string)
    (description amount category : pyval) : M bool :=
  try_except ClsSQLAlchemyError
    (conn <- engine_connect ;;
     user_id <- get_user_id telegram_id ;;
     if not_user_id user_id then ret false
     else
       added_at <- datetime_utcnow ;;
       conn <- execute_INSERT_EXPENSE conn (default 0 user_id)
                 description amount category added_at ;;
       conn_commit conn ;;
       ret true)
    (fun e => ret false).

End Driver.

(** The rows of [expenses e JOIN users u ON e.user_id = u.id
    WHERE u.telegram_id = :telegram_id]. *)
Definition joined_expenses (w : world) (telegram_id : string)
    : list expense_row :=
  flat_map
    (fun e =>
       map (fun _ => e)
           (filter (fun u => Z.eqb (e_user_id e) (u_id u)
                             && String.eqb (u_telegram_id u) telegram_id)
                   (users w)))
    (expenses w).

(** [ORDER BY e.added_at DESC]: NULL sorts first in descending order. *)
Definition added_at_desc (a b : expense_row) : Prop :=
  match e_added_at a, e_added_at b with
  | None, _ => True
  | Some _, None => False
  | Some ta, Some tb => (tb <= ta)%Z
  end.

#[local] Instance added_at_desc_dec (a b : expense_row)
  : Decision (added_at_desc a b).
Proof.
  unfold added_at_desc.
  destruct (e_added_at a), (e_added_at b); apply _.
Defined.

(** The rows of the query of [get_user_expenses], for a [LIMIT] that is
    not negative. *)
Definition SELECT_EXPENSES (w : world) (telegram_id : string) (limit : Z)
    : list expense_row :=
  take (Z.to_nat limit)
       (merge_sort added_at_desc (joined_expenses w telegram_id)).

(** A negative [LIMIT] is refused by the server. *)
Definition execute_SELECT_EXPENSES (telegram_id : string) (limit : Z)
    : M (list expense_row) :=
  db_round_trip ;;
  w <- get_world ;;
  if (limit <? 0)%Z then lift (Raise SQLAlchemyError)
  else ret (SELECT_EXPENSES w telegram_id limit).

(** One dict of the list [get_user_expenses] returns; [added_at] stands for
    the [isoformat()] text of the timestamp. *)
Record expense_item : Type := ExpenseItem {
  description : option string;
  amount : spec_float;
  category : option string;
  added_at : option Z
}.

(** The dict built from a row in the loop of [get_user_expenses]. *)
Definition item_of_row (row : expense_row) : expense_item :=
  ExpenseItem (e_description row) (float_of_numeric (e_amount row))
              (e_category row) (e_added_at row).

Definition get_user_expenses (telegram_id : string) (limit : Z)
    : M (list expense_item) :=
  try_except ClsSQLAlchemyError
    (conn <- engine_connect ;;
     result <- execute_SELECT_EXPENSES telegram_id limit ;;
     ret (fold_left
            (fun expenses row => (expenses ++ [item_of_row row])%list)
            result []))
    (fun e => ret []).

(** A row of the aggregate query: [category, COUNT( * ), SUM(amount)]. *)
Record stats_row : Type := StatsRow {
  sr_category : option string;
  sr_count : Z;
  sr_total_amount : Q
}.

Definition sum_Q (l : list Q) : Q := fold_right Qplus (0 # 1) l.

Definition sum_Z (l : list Z) : Z := fold_right Z.add 0 l.

(** The floats of [l] added from left to right, from [0.0]. *)
Definition float_sum (l : list spec_float) : spec_float :=
  fold_left float_add l float0.

(** The rows whose key is [c]. *)
Definition group {K A : Type} `{EqDecision K} (key : A -> K) (c : K)
    (rows : list A) : list A :=
  filter (fun e => bool_decide (key e = c)) rows.

(** [GROUP BY e.category]: one row per distinct category, in the order of
    first occurrence. *)
Definition group_by_category (rows : list expense_row) : list stats_row :=
  map (fun c =>
         let grp := group e_category c rows in
         StatsRow c (Z.of_nat (length grp)) (sum_Q (map e_amount grp)))
      (remove_dups (map e_category rows)).

(** [ORDER BY total_amount DESC] *)
Definition total_amount_desc (a b : stats_row) : Prop :=
  Qle_bool (sr_total_amount b) (sr_total_amount a) = true.

#[local] Instance total_amount_desc_dec (a b : stats_row)
  : Decision (total_amount_desc a b).
Proof. unfold total_amount_desc. apply _. Defined.

(** The rows of the query of [get_expense_stats]. *)
Definition SELECT_STATS (w : world) (telegram_id : string) : list stats_row :=
  merge_sort total_amount_desc
    (group_by_category (joined_expenses w telegram_id)).

Definition execute_SELECT_STATS (telegram_id : string) : M (list stats_row) :=
  db_round_trip ;;
  w <- get_world ;;
  ret (SELECT_STATS w telegram_id).

Record category_stats : Type := CategoryStats {
  count : Z;
  cat_total_amount : spec_float
}.

Record stats : Type := Stats {
  total_expenses : Z;
  total_amount : spec_float;
  categories : gmap (option string) category_stats
}.

Definition empty_stats : stats := Stats 0 float0 ∅.

(** [float(row[2]) if row[2] else 0.0] *)
Definition row_total (row : stats_row) : spec_float :=
  if negb (Qeq_bool (sr_total_amount row) (0 # 1))
  then float_of_numeric (sr_total_amount row) else float0.

(** The body of the [for row in result.fetchall()] loop. *)
Definition stats_step (st : stats) (row : stats_row) : stats :=
  let category := sr_category row in
  let count := sr_count row in
  let total := row_total row in
  Stats (total_expenses st + count)
        (float_add (total_amount st) total)
        (<[category := CategoryStats count total]> (categories st)).

Definition get_expense_stats (telegram_id : string) : M stats :=
  try_except ClsSQLAlchemyError
    (conn <- engine_connect ;;
     result <- execute_SELECT_STATS telegram_id ;;
     ret (fold_left stats_step result empty_stats))
    (fun e => ret empty_stats).

End Repository.
Export Repository.

(** ** constants.py *)

Module Constants.

(** [EXPENSE_CATEGORIES], the values of the enum [ExpenseCategory]. *)
Definition EXPENSE_CATEGORIES : list string :=
  ["Housing"; "Transportation"; "Food"; "Utilities"; "Insurance";
   "Medical/Healthcare"; "Savings"; "Debt"; "Education"; "Entertainment";
   "Other"].

Definition MESSAGES_UNAUTHORIZED_USER : string :=
  "User not authorized to use this bot".
Definition MESSAGES_NON_EXPENSE_MESSAGE : string :=
  "Message does not appear to be an expense".
Definition MESSAGES_INVALID_EXPENSE_DATA : string :=
  "Could not extract valid expense information".
Definition MESSAGES_DATABASE_SAVE_ERROR : string :=
  "Failed to save expense to database".

(** [MESSAGES["EXPENSE_ADDED"].format(category=...)], given the text of the
    category; the check mark of the template is held as its UTF-8 bytes. *)
Definition MESSAGES_EXPENSE_ADDED (category : string) : string :=
  category ++ " expense added ✅".

End Constants.
Export Constants.

(** ** service.py *)

Module Service.

Local Open Scope py_scope.

(** [{"is_expense": False}] *)
Definition NOT_AN_EXPENSE : pydict := [("is_expense", PyBool false)].

(** The dicts [process_expense] returns on its failure paths. *)
Definition failure (message : string) : pydict :=
  [("success", PyBool false); ("message", PyStr message)].

Definition Unauthorized : pydict := failure MESSAGES_UNAUTHORIZED_USER.
Definition NotAnExpense : pydict := failure MESSAGES_NON_EXPENSE_MESSAGE.
Definition InvalidExtraction : pydict := failure MESSAGES_INVALID_EXPENSE_DATA.
Definition PersistenceFailed : pydict := failure MESSAGES_DATABASE_SAVE_ERROR.

Definition is_user_authorized (telegram_id : string) : M bool :=
  is_user_whitelisted telegram_id.

Section Builtins.

(** Library functions the service calls; they are not part of the
    repository: [json.loads], [float] on a [str], [str] on a value. *)
Variable json_loads : string -> result pyval.
Variable float_of_str : string -> result spec_float.
Variable py_str : pyval -> string.
Variable adapt_text : pyval -> option string.
Variable adapt_numeric : pyval -> Q.

(** [float(x)] *)
Definition py_float (x : pyval) : result spec_float :=
  match x with
  | PyBool b => Ok (if b then float1 else float0)
  | PyInt z => float_of_int z
  | PyFloat f => Ok f
  | PyStr s => float_of_str s
  | PyNone | PyList _ | PyDict _ => Raise TypeError
  end.

(** What the checks of the extractor establish about the [amount] of a
    payload it accepts, and the float it returns for it. *)
Definition accepted_amount (amount : pyval) (amount_f : spec_float) : Prop :=
  truthy amount = true /\ py_le_zero amount = Ok false
  /\ py_float amount = Ok amount_f.

(** [not description or not amount or amount <= 0], left to right. *)
Definition invalid_expense_response (description amount : pyval)
    : result bool :=
  if negb (truthy description) then Ok true
  else if negb (truthy amount) then Ok true
  else py_le_zero amount.

(** The body of the [try] of [analyze_expense_message]. *)
Definition analyze_try (message : string) : M pydict :=
  content <- llm_ainvoke message ;;
  let json_str := json_str content in
  result <- lift (json_loads json_str) ;;
  is_expense <- lift (py_get result "is_expense" (PyBool false)) ;;
  if negb (truthy is_expense) then ret NOT_AN_EXPENSE
  else
    description <- lift (py_get result "description" PyNone) ;;
    amount <- lift (py_get result "amount" PyNone) ;;
    invalid <- lift (invalid_expense_response description amount) ;;
    if invalid then ret NOT_AN_EXPENSE
    else
      amount_f <- lift (py_float amount) ;;
      category <- lift (py_get result "category" (PyStr "Other")) ;;
      ret [("is_expense", PyBool true);
           ("description", description);
           ("amount", PyFloat amount_f);
           ("category", category)].

Definition analyze_expense_message (message : string) : M pydict :=
  try_except ClsException
    (analyze_try message)
    (fun e => ret NOT_AN_EXPENSE).

(** [not description or amount <= 0] *)
Definition invalid_expense_data (description amount : pyval) : result bool :=
  if negb (truthy description) then Ok true else py_le_zero amount.

Definition process_expense (telegram_id message : string) : M pydict :=
  authorized <- is_user_authorized telegram_id ;;
  if negb authorized then ret Unauthorized
  else
    analysis <- analyze_expense_message message ;;
    if negb (truthy (dict_get analysis "is_expense" (PyBool false)))
    then ret NotAnExpense
    else
      let description := dict_get analysis "description" PyNone in
      let amount := dict_get analysis "amount" (PyInt 0) in
      let category := dict_get analysis "category" (PyStr "Other") in
      invalid <- lift (invalid_expense_data description amount) ;;
      if invalid then ret InvalidExtraction
      else
        saved <- save_expense adapt_text adapt_numeric telegram_id
                   description amount category ;;
        if saved then
          ret [("success", PyBool true);
               ("category", category);
               ("description", description);
               ("amount", amount);
               ("message", PyStr (MESSAGES_EXPENSE_ADDED (py_str category)))]
        else ret PersistenceFailed.

End Builtins.

(** [get_categories] *)
Definition get_categories : list string := EXPENSE_CATEGORIES.

End Service.
Export Service.

(** ** Concrete inputs *)

Module Examples.

Definition dq : string := String (ascii_of_nat 34) EmptyString.

(** [s] between double quotes. *)
Definition quoted (s : string) : string := dq ++ s ++ dq.

(** The exact value of a finite float; [0] for the others. *)
Definition float_value (f : spec_float) : Q :=
  match f with
  | S754_finite s m e =>
      let n := if s then Zneg m else Zpos m in
      match e with
      | Z0 => n # 1
      | Zpos p => (n * 2 ^ Zpos p) # 1
      | Zneg p => n # (2 ^ p)
      end
  | _ => 0 # 1
  end.

(** [json.loads] on the listed texts; any other text is refused. *)
Fixpoint json_loads_of (table : list (string * pyval)) (text : string)
    : result pyval :=
  match table with
  | [] => Raise JSONDecodeError
  | (t, v) :: table' =>
      if String.eqb t text then Ok v else json_loads_of table' text
  end.

(** [float] on a [str], on no text at all. *)
Definition float_of_no_str (s : string) : result spec_float :=
  Raise ValueError.

(** [str] on a [str]. *)
Definition str_of (x : pyval) : string :=
  match x with
  | PyStr s => s
  | _ => ""
  end.

(** A driver that stores a [str] as it is, [None] as NULL, and a float
    with its exact value. *)
Definition text_of (x : pyval) : option string :=
  match x with
  | PyStr s => Some s
  | _ => None
  end.

Definition numeric_of (x : pyval) : Q :=
  match x with
  | PyFloat f => float_value f
  | PyInt z => z # 1
  | _ => 0 # 1
  end.

(** [{"is_expense": true, "description": "Pizza", "amount": 20,
      "category": "Food"}] *)
Definition pizza_completion : string :=
  "{" ++ quoted "is_expense" ++ ": true, "
      ++ quoted "description" ++ ": " ++ quoted "Pizza" ++ ", "
      ++ quoted "amount" ++ ": 20, "
      ++ quoted "category" ++ ": " ++ quoted "Food" ++ "}".

Definition pizza_payload : pyval :=
  PyDict [("is_expense", PyBool true); ("description", PyStr "Pizza");
          ("amount", PyInt 20); ("category", PyStr "Food")].

(** The same with the category ["Groceries"], which is not in the list. *)
Definition groceries_completion : string :=
  "{" ++ quoted "is_expense" ++ ": true, "
      ++ quoted "description" ++ ": " ++ quoted "Pizza" ++ ", "
      ++ quoted "amount" ++ ": 20, "
      ++ quoted "category" ++ ": " ++ quoted "Groceries" ++ "}".

Definition groceries_payload : pyval :=
  PyDict [("is_expense", PyBool true); ("description", PyStr "Pizza");
          ("amount", PyInt 20); ("category", PyStr "Groceries")].

(** The same with the amount [NaN], which [json.loads] reads as the float
    nan. *)
Definition nan_completion : string :=
  "{" ++ quoted "is_expense" ++ ": true, "
      ++ quoted "description" ++ ": " ++ quoted "Pizza" ++ ", "
      ++ quoted "amount" ++ ": NaN, "
      ++ quoted "category" ++ ": " ++ quoted "Food" ++ "}".

Definition nan_payload : pyval :=
  PyDict [("is_expense", PyBool true); ("description", PyStr "Pizza");
          ("amount", PyFloat float_nan); ("category", PyStr "Food")].

(** [{"is_expense": false}] *)
Definition hello_completion : string :=
  "{" ++ quoted "is_expense" ++ ": false}".

Definition hello_payload : pyval := PyDict [("is_expense", PyBool false)].

(** An object with an object inside:
    [{"is_expense": true, "description": "Pizza", "amount": 20,
      "details": {"currency": "USD"}, "category": "Food"}] *)
Definition nested_head : string :=
  "{" ++ quoted "is_expense" ++ ": true, "
      ++ quoted "description" ++ ": " ++ quoted "Pizza" ++ ", "
      ++ quoted "amount" ++ ": 20, "
      ++ quoted "details" ++ ": {" ++ quoted "currency" ++ ": "
      ++ quoted "USD" ++ "}".

Definition nested_completion : string :=
  nested_head ++ ", " ++ quoted "category" ++ ": " ++ quoted "Food" ++ "}".

Definition json_loads_demo : string -> result pyval :=
  json_loads_of [(pizza_completion, pizza_payload);
                 (groceries_completion, groceries_payload);
                 (nan_completion, nan_payload);
                 (hello_completion, hello_payload)].

(** A world with the user ["42"] of id [7], no expense, no fault, and a
    backend that answers every message with [completion]. *)
Definition world_answering (completion : string) : world :=
  MkWorld [UserRow 7 "42"] [] [] 1700000000 (fun _ => Ok completion) [].

(** A world where the user ["42"] has two expenses of the category
    ["Food"], of 0.1 and 0.2, and nothing fails. *)
Definition world_two_expenses : world :=
  MkWorld [UserRow 7 "42"]
          [ExpenseRow 7 (Some "Coffee") (1 # 10) (Some "Food")
                      (Some 1700000000);
           ExpenseRow 7 (Some "Tea") (2 # 10) (Some "Food")
                      (Some 1700000060)]
          [] 1700000120 (fun _ => Ok hello_completion) [].

(** The same world as [world_answering pizza_completion], but the third
    round trip to the database fails: the gate gets its answer, then the
    connection of [save_expense] cannot be opened. *)
Definition world_db_outage : world :=
  MkWorld [UserRow 7 "42"] [] [false; false; true] 1700000000
          (fun _ => Ok pizza_completion) [].

(** A world whose backend cannot be reached. *)
Definition world_backend_down : world :=
  MkWorld [UserRow 7 "42"] [] [] 1700000000 (fun _ => Raise ConnectionError) [].

End Examples.
Export Examples.

(** ** Closed forms used to state further properties *)

Module Views.

(** The float the extractor returns for an [amount] it accepts: [True]
    counts as [1.0], an int must be positive and fit a float, a float must
    be truthy and not [<= 0]; any other value is refused. *)
Definition amount_float (amount : pyval) : option spec_float :=
  match amount with
  | PyBool true => Some float1
  | PyInt z =>
      if (0 <? z)%Z then
        match float_of_int z with
        | Ok f => Some f
        | Raise _ => None
        end
      else None
  | PyFloat f =>
      if truthy (PyFloat f) && negb (SFleb f float0) then Some f else None
  | _ => None
  end.

(** The result of the extractor for a parsed payload. *)
Definition analysis_of (payload : pyval) : pydict :=
  match payload with
  | PyDict d =>
      if truthy (dict_get d "is_expense" (PyBool false))
         && truthy (dict_get d "description" PyNone)
      then
        match amount_float (dict_get d "amount" PyNone) with
        | Some amount_f =>
            [("is_expense", PyBool true);
             ("description", dict_get d "description" PyNone);
             ("amount", PyFloat amount_f);
             ("category", dict_get d "category" (PyStr "Other"))]
        | None => NOT_AN_EXPENSE
        end
      else NOT_AN_EXPENSE
  | _ => NOT_AN_EXPENSE
  end.

(** [a] was added no earlier than [b]; an item without a time comes
    first. *)
Definition recent_first (a b : expense_item) : Prop :=
  match added_at a, added_at b with
  | None, _ => True
  | Some _, None => False
  | Some ta, Some tb => (tb <= ta)%Z
  end.

(** The row of the aggregate query for the category [c]. *)
Definition category_row (c : option string) (rows : list expense_row)
    : stats_row :=
  StatsRow c (Z.of_nat (length (group e_category c rows)))
           (sum_Q (map e_amount (group e_category c rows))).

(** [c] occurs in [s]. *)
Fixpoint occurs (c : ascii) (s : string) : bool :=
  match s with
  | EmptyString => false
  | String c' s' => Ascii.eqb c' c || occurs c s'
  end.

(** The world of [world_two_expenses] after the user ["42"] saved a
    pizza of 20.0. *)
Definition pizza_row : expense_row :=
  ExpenseRow 7 (Some "Pizza") (numeric_of (PyFloat
               (S754_finite false 5629499534213120 (-48))))
             (Some "Food") (Some 1700000120).

Definition world_three_expenses : world :=
  MkWorld (users world_two_expenses)
          (expenses world_two_expenses ++ [pizza_row])%list
          [] 1700000120 (fun _ => Ok hello_completion) [].

(** [{"is_expense": true, "description": "Pizza", "amount": "20",
      "category": "Food"}]: the amount is a text. *)
Definition text_amount_completion : string :=
  "{" ++ quoted "is_expense" ++ ": true, "
      ++ quoted "description" ++ ": " ++ quoted "Pizza" ++ ", "
      ++ quoted "amount" ++ ": " ++ quoted "20" ++ ", "
      ++ quoted "category" ++ ": " ++ quoted "Food" ++ "}".

Definition text_amount_payload : pyval :=
  PyDict [("is_expense", PyBool true); ("description", PyStr "Pizza");
          ("amount", PyStr "20"); ("category", PyStr "Food")].

(** [float] on the texts ["20"] and ["20.0"]. *)
Definition float_of_twenty (s : string) : result spec_float :=
  if String.eqb s "20" || String.eqb s "20.0"
  then Ok (S754_finite false 5629499534213120 (-48))
  else Raise ValueError.

End Views.
Export Views.

(** ** connector-service/main.py *)

Module Connector.

(** The exceptions of the connector: [httpx.RequestError] (the request to
    the Bot Service could not be made or got no answer), the error of
    pydantic, an error of the Telegram client, any built-in exception, and
    the [HTTPException] that the webhook raises.  All derive from
    [Exception]. *)
Inductive cexn : Type :=
| RequestError
| ValidationError
| TelegramError
| Builtin (e : exn)
| HTTPException (status_code : Z).

(** [isinstance(e, httpx.RequestError)] *)
Definition is_RequestError (e : cexn) : bool :=
  match e with
  | RequestError => true
  | _ => false
  end.

Inductive outcome (A : Type) : Type :=
| Done (a : A)
| Raised (e : cexn).
Arguments Done {A} a.
Arguments Raised {A} e.

(** [BotServiceResponse] *)
Record BotServiceResponse : Type := MkBotServiceResponse {
  resp_success : bool;
  resp_message : string;
  resp_category : option string;
  resp_description : option string;
  resp_amount : option spec_float
}.

(** An HTTP response: its status code and what [response.json()] gives. *)
Record response : Type := MkResponse {
  status_code : Z;
  json : outcome pyval
}.

(** The part of a Telegram update that the connector reads. *)
Record User : Type := MkUser { user_id : Z }.

Record Message : Type := MkMessage {
  msg_text : option string;
  msg_chat_id : Z;
  msg_from_user : option User
}.

Record Update : Type := MkUpdate { update_message : option Message }.

(** - [bot_service]: what [client.post] to [/process-expense] gives for a
      [telegram_id] and a [message];
    - [posts]: the requests made so far, latest first;
    - [telegram]: what [bot.send_message] gives for a chat and a text;
    - [sent]: the calls of [bot.send_message] so far, latest first. *)
Record net : Type := MkNet {
  bot_service : string -> string -> outcome response;
  posts : list (string * string);
  telegram : Z -> string -> outcome unit;
  sent : list (Z * string)
}.

Definition C (A : Type) : Type := net -> outcome A * net.

Definition cret {A : Type} (a : A) : C A := fun n => (Done a, n).

Definition cbind {A B : Type} (c : C A) (k : A -> C B) : C B :=
  fun n =>
    match c n with
    | (Done a, n') => k a n'
    | (Raised e, n') => (Raised e, n')
    end.

Definition clift {A : Type} (r : outcome A) : C A := fun n => (r, n).

Declare Scope conn_scope.
Delimit Scope conn_scope with conn.
Notation "x <- c ;; k" := (cbind c (fun x => k))
  (at level 20, c at level 99, k at level 200, only parsing) : conn_scope.
Notation "c ;; k" := (cbind c (fun _ => k))
  (at level 100, k at level 200, right associativity, only parsing)
  : conn_scope.

Local Open Scope conn_scope.

(** The network after a request to the Bot Service. *)
Definition posted (telegram_id message : string) (n : net) : net :=
  MkNet (bot_service n) ((telegram_id, message) :: posts n)
        (telegram n) (sent n).

(** The network after a call of [bot.send_message]. *)
Definition replied (chat_id : Z) (text : string) (n : net) : net :=
  MkNet (bot_service n) (posts n) (telegram n)
        ((chat_id, text) :: sent n).

(** [await client.post(f"{BOT_SERVICE_URL}/process-expense", ...)] *)
Definition client_post (telegram_id message : string) : C response :=
  fun n => (bot_service n telegram_id message, posted telegram_id message n).

(** [await bot.send_message(chat_id=chat_id, text=message)] *)
Definition bot_send_message (chat_id : Z) (text : string) : C unit :=
  fun n => (telegram n chat_id text, replied chat_id text n).

(** [BotServiceResponse(success=False, message=...)] *)
Definition failed (message : string) : BotServiceResponse :=
  MkBotServiceResponse false message None None None.

(** [str(n)] for an int *)
Definition str_of_int (z : Z) : string :=
  NilZero.string_of_int (Z.to_int z).

(** The sender of a message, as the Bot Service is told:
    [str(update.message.from_user.id) if update.message.from_user else
    "unknown"]. *)
Definition sender (message : Message) : string :=
  match msg_from_user message with
  | Some from_user => str_of_int (user_id from_user)
  | None => "unknown"
  end.

Section Pydantic.

(** What pydantic makes of the keyword arguments taken from the parsed
    answer; it is not part of the repository. *)
Variable validate : pydict -> outcome BotServiceResponse.

(** [BotServiceResponse] built from the parsed answer with the double-star
    call, which needs a mapping. *)
Definition BotServiceResponse_of (result : pyval)
    : outcome BotServiceResponse :=
  match result with
  | PyDict d => validate d
  | _ => Raised (Builtin TypeError)
  end.

Definition forward_to_bot_service (telegram_id message : string)
    : C BotServiceResponse :=
  fun n =>
    match
      (response <- client_post telegram_id message ;;
       if Z.eqb (status_code response) 200 then
         result <- clift (json response) ;;
         clift (BotServiceResponse_of result)
       else cret (failed "Error processing expense")) n
    with
    | (Done r, n') => (Done r, n')
    | (Raised e, n') =>
        if is_RequestError e
        then (Done (failed "Service temporarily unavailable"), n')
        else (Done (failed "Internal server error"), n')
    end.

Definition send_telegram_response (chat_id : Z) (message : string)
    : C bool :=
  fun n =>
    match (bot_send_message chat_id message ;; cret true) n with
    | (Done b, n') => (Done b, n')
    | (Raised e, n') => (Done false, n')
    end.

(** [update] is [None] when [Update.de_json] returns [None]; reading
    [update.message] then raises [AttributeError]. *)
Definition handle_telegram_message (update : option Update) : C unit :=
  match update with
  | None => clift (Raised (Builtin AttributeError))
  | Some update =>
      match update_message update with
      | None => cret tt
      | Some message =>
          match msg_text message with
          | None => cret tt
          | Some text =>
              if String.eqb text "" then cret tt
              else
                let chat_id := msg_chat_id message in
                let user_id := sender message in
                let message_text := strip text in
                bot_response <- forward_to_bot_service user_id
                                  message_text ;;
                let response_message := resp_message bot_response in
                send_telegram_response chat_id response_message ;;
                cret tt
          end
      end
  end.

(** [telegram_webhook]; [parsed] is what [await request.json()] followed by
    [Update.de_json(update_data, bot)] gives.  The result is the [status]
    of the [WebhookResponse]. *)
Definition telegram_webhook (parsed : outcome (option Update)) : C string :=
  fun n =>
    match
      (update <- clift parsed ;;
       handle_telegram_message update ;;
       cret "ok") n
    with
    | (Done status, n') => (Done status, n')
    | (Raised e, n') => (Raised (HTTPException 500), n')
    end.

End Pydantic.

End Connector.

(** ** bot-service/setup-ollama.py *)

Module SetupOllama.

(** [requests.exceptions.RequestException], [KeyError] and the built-in
    exceptions of the model; all derive from [Exception]. *)
Inductive sexn : Type :=
| RequestException
| KeyError
| Builtin (e : exn).

(** [isinstance(e, requests.exceptions.RequestException)] *)
Definition is_RequestException (e : sexn) : bool :=
  match e with
  | RequestException => true
  | _ => false
  end.

Inductive outcome (A : Type) : Type :=
| Done (a : A)
| Raised (e : sexn).
Arguments Done {A} a.
Arguments Raised {A} e.

(** An HTTP response: its status code and what [response.json()] gives. *)
Record response : Type := MkResponse {
  status_code : Z;
  json : outcome pyval
}.

(** - [tags]: what the [n]-th [requests.get] of [/api/tags] gives,
      counted from 0 over the whole run;
    - [gets]: the number of such requests made so far;
    - [pull]: what [requests.post] to [/api/pull] gives for a model name;
    - [pulls]: the names pulled so far, latest first;
    - [slept]: the seconds spent in [time.sleep] so far. *)
Record host : Type := MkHost {
  tags : nat -> outcome response;
  gets : nat;
  pull : string -> outcome response;
  pulls : list string;
  slept : Z
}.

Definition Run (A : Type) : Type := host -> outcome A * host.

Definition oret {A : Type} (a : A) : Run A := fun h => (Done a, h).

Definition obind {A B : Type} (c : Run A) (k : A -> Run B) : Run B :=
  fun h =>
    match c h with
    | (Done a, h') => k a h'
    | (Raised e, h') => (Raised e, h')
    end.

Definition olift {A : Type} (r : outcome A) : Run A := fun h => (r, h).

Declare Scope setup_scope.
Delimit Scope setup_scope with setup.
Notation "x <- c ;; k" := (obind c (fun x => k))
  (at level 20, c at level 99, k at level 200, only parsing) : setup_scope.
Notation "c ;; k" := (obind c (fun _ => k))
  (at level 100, k at level 200, right associativity, only parsing)
  : setup_scope.

Local Open Scope setup_scope.

(** [requests.get(f"{base_url}/api/tags", ...)] *)
Definition requests_get_tags : Run response :=
  fun h =>
    (tags h (gets h),
     MkHost (tags h) (S (gets h)) (pull h) (pulls h) (slept h)).

(** [requests.post(f"{base_url}/api/pull", json={"name": model_name})] *)
Definition requests_post_pull (model_name : string) : Run response :=
  fun h =>
    (pull h model_name,
     MkHost (tags h) (gets h) (pull h) (model_name :: pulls h) (slept h)).

(** [time.sleep(seconds)] *)
Definition time_sleep (seconds : Z) : Run unit :=
  fun h =>
    (Done tt,
     MkHost (tags h) (gets h) (pull h) (pulls h) (slept h + seconds)).

(** One turn of the loop of [wait_for_ollama], up to the test of the
    status: whether the service answered 200.  A [RequestException] is
    passed over; any other exception leaves the function. *)
Definition ready_now : Run bool :=
  fun h =>
    match requests_get_tags h with
    | (Done response, h') => (Done (Z.eqb (status_code response) 200), h')
    | (Raised e, h') =>
        if is_RequestException e then (Done false, h')
        else (Raised e, h')
    end.

(** The loop [for i in range(max_retries)] with [retries] turns left. *)
Fixpoint wait_loop (retries : nat) : Run bool :=
  match retries with
  | 0%nat => oret false
  | S retries' =>
      ready <- ready_now ;;
      if ready then oret true
      else time_sleep 10 ;; wait_loop retries'
  end.

(** Whether an attempt ends the wait: the service answered 200. *)
Definition is_ready (r : outcome response) : bool :=
  match r with
  | Done response => Z.eqb (status_code response) 200
  | Raised _ => false
  end.

(** Whether an attempt is passed over: another status, or a
    [RequestException]. *)
Definition is_passed (r : outcome response) : bool :=
  match r with
  | Done response => negb (Z.eqb (status_code response) 200)
  | Raised e => is_RequestException e
  end.

(** The host after [k] attempts that were passed over. *)
Definition waited (k : nat) (h : host) : host :=
  MkHost (tags h) (gets h + k) (pull h) (pulls h)
         (slept h + 10 * Z.of_nat k).

Definition wait_for_ollama (max_retries : Z) : Run bool :=
  wait_loop (Z.to_nat max_retries).

(** [for model in models]: the items that the iteration yields. *)
Definition py_iter (x : pyval) : outcome (list pyval) :=
  match x with
  | PyList l => Done l
  | PyDict d => Done (map (fun kv => PyStr (fst kv)) d)
  | PyStr s =>
      Done (map (fun c => PyStr (String c EmptyString))
                (list_ascii_of_string s))
  | PyNone | PyBool _ | PyInt _ | PyFloat _ => Raised (Builtin TypeError)
  end.

(** [model["name"]] *)
Definition getitem_name (model : pyval) : outcome pyval :=
  match model with
  | PyDict d =>
      if dict_has d "name" then Done (dict_get d "name" PyNone)
      else Raised KeyError
  | _ => Raised (Builtin TypeError)
  end.

(** [x == model_name] for a [str] on the right. *)
Definition py_eq_str (x : pyval) (s : string) : bool :=
  match x with
  | PyStr t => String.eqb t s
  | _ => false
  end.

(** [any(model["name"] == model_name for model in models)], over the
    items of [models]: it stops at the first match, and an item without a
    name before that raises. *)
Fixpoint any_named (models : list pyval) (model_name : string)
    : outcome bool :=
  match models with
  | [] => Done false
  | model :: models' =>
      match getitem_name model with
      | Raised e => Raised e
      | Done name =>
          if py_eq_str name model_name then Done true
          else any_named models' model_name
      end
  end.

(** [response.json().get("models", [])] *)
Definition models_of (response : response) : outcome pyval :=
  match json response with
  | Raised e => Raised e
  | Done (PyDict d) => Done (dict_get d "models" (PyList []))
  | Done _ => Raised (Builtin AttributeError)
  end.

(** The host after one request of the tags. *)
Definition asked_tags (h : host) : host :=
  MkHost (tags h) (S (gets h)) (pull h) (pulls h) (slept h).

(** The host after a pull of [model_name]. *)
Definition pulled (model_name : string) (h : host) : host :=
  MkHost (tags h) (gets h) (pull h) (model_name :: pulls h) (slept h).

(** What the first [if] of [download_model] makes of the answer to the
    request of the tags: whether it lists the model, or the exception
    raised on the way. *)
Definition lists_model (r : outcome response) (model_name : string)
    : outcome bool :=
  match r with
  | Raised e => Raised e
  | Done response =>
      if Z.eqb (status_code response) 200 then
        match models_of response with
        | Raised e => Raised e
        | Done models =>
            match py_iter models with
            | Raised e => Raised e
            | Done items => any_named items model_name
            end
        end
      else Done false
  end.

(** The body of the [try] of [download_model]; [exists_already] is
    whether the first [if] returned [True]. *)
Definition download_try (model_name : string) : Run bool :=
  response <- requests_get_tags ;;
  exists_already <-
    (if Z.eqb (status_code response) 200 then
       models <- olift (models_of response) ;;
       items <- olift (py_iter models) ;;
       olift (any_named items model_name)
     else oret false) ;;
  if exists_already then oret true
  else
    response <- requests_post_pull model_name ;;
    if Z.eqb (status_code response) 200 then oret true else oret false.

Definition download_model (model_name : string) : Run bool :=
  fun h =>
    match download_try model_name h with
    | (Done b, h') => (Done b, h')
    | (Raised e, h') => (Done false, h')
    end.

(** [main], for the model name that the environment gives; the number of
    retries is the default 30. *)
Definition main (model_name : string) : Run bool :=
  ready <- wait_for_ollama 30 ;;
  if negb ready then oret false
  else
    downloaded <- download_model model_name ;;
    if negb downloaded then oret false
    else oret true.

(** An answer 200 to the request of the tags with the given models. *)
Definition tags_answer (models : list pyval) : outcome response :=
  Done (MkResponse 200 (Done (PyDict [("models", PyList models)]))).

(** A service that refuses two connections and then lists the models
    [mistral] and [llama2]; every pull is answered 200. *)
Definition host_up_after_two : host :=
  MkHost (fun n =>
            if (n <? 2)%nat then Raised RequestException
            else tags_answer [PyDict [("name", PyStr "mistral")];
                              PyDict [("name", PyStr "llama2")]])
         0 (fun _ => Done (MkResponse 200 (Done PyNone))) [] 0.

(** A service whose list starts with an entry without a name. *)
Definition host_nameless_entry : host :=
  MkHost (fun _ => tags_answer [PyDict [("model", PyStr "mistral")];
                                PyDict [("name", PyStr "llama2")]])
         0 (fun _ => Done (MkResponse 200 (Done PyNone))) [] 0.

(** A service that cannot be reached. *)
Definition host_down : host :=
  MkHost (fun _ => Raised RequestException) 0
         (fun _ => Raised RequestException) [] 0.

End SetupOllama.

(** ** setup.py and docker-setup.py: the environment files *)

Module EnvFiles.

(** The regular files of the working directory, each path with its
    content; the model has no directories and no permissions, so a copy
    of a file that exists succeeds. *)
Abbreviation files := (gmap string string).

(** [Path(path).exists()] *)
Definition path_exists (path : string) (fs : files) : bool :=
  bool_decide (is_Some (fs !! path)).

(** [shutil.copy(src, dst)] for a [src] that exists. *)
Definition shutil_copy (src dst : string) (fs : files) : files :=
  match fs !! src with
  | Some content => <[dst := content]> fs
  | None => fs
  end.

(** [create_env_files], the same in both scripts. *)
Definition create_env_files (fs : files) : files :=
  let bot_env_path := "bot-service/.env" in
  let fs :=
    if negb (path_exists bot_env_path fs) then
      let bot_env_example := "bot-service/env.example" in
      if path_exists bot_env_example fs
      then shutil_copy bot_env_example bot_env_path fs
      else fs
    else fs in
  let connector_env_path := "connector-service/.env" in
  if negb (path_exists connector_env_path fs) then
    let connector_env_example := "connector-service/env.example" in
    if path_exists connector_env_example fs
    then shutil_copy connector_env_example connector_env_path fs
    else fs
  else fs.

End EnvFiles.

(** * Properties *)

Local Open Scope py_scope.

(** ** The monad *)

Lemma bind_Ok {A B : Type} (c : M A) (k : A -> M B) (w w' : world) (a : A) :
  c w = (Ok a, w') -> bind c k w = k a w'.
Proof. intros H. unfold bind. rewrite H. reflexivity. Qed.

(** Every exception of the model is an instance of [Exception]. *)
Lemma isinstance_Exception (e : exn) : isinstance e ClsException = true.
Proof. reflexivity. Qed.

(** ** The brace pattern *)

Lemma after_open_spec (s rest : string) :
  after_open s = Some rest ->
  exists pre, s = pre ++ String open_brace rest
              /\ after_open pre = None.
Proof.
  revert rest. induction s as [|c s IH]; intros rest H; simpl in H.
  - discriminate.
  - destruct (Ascii.eqb c open_brace) eqn:Ec.
    + apply Ascii.eqb_eq in Ec. subst c. injection H as <-.
      exists EmptyString. split; reflexivity.
    + destruct (IH _ H) as (pre & -> & Hpre).
      exists (String c pre). split; [reflexivity|].
      simpl. rewrite Ec. exact Hpre.
Qed.

Lemma upto_close_spec (s m : string) :
  upto_close s = Some m ->
  exists body post, s = body ++ String close_brace post
                    /\ m = body ++ String close_brace EmptyString
                    /\ upto_close body = None.
Proof.
  revert m. induction s as [|c s IH]; intros m H; simpl in H.
  - discriminate.
  - destruct (Ascii.eqb c close_brace) eqn:Ec.
    + apply Ascii.eqb_eq in Ec. subst c. injection H as <-.
      exists EmptyString, s. repeat split.
    + destruct (upto_close s) as [m'|] eqn:Em; [|discriminate].
      injection H as <-.
      destruct (IH _ eq_refl) as (body & post & -> & -> & Hbody).
      exists (String c body), post. repeat split.
      simpl. rewrite Ec, Hbody. reflexivity.
Qed.

(** What the pattern matches: the text from the first opening brace to the
    first closing brace after it. *)
Lemma re_search_json_spec (content m : string) :
  re_search_json content = Some m ->
  exists pre body post,
    content = pre ++ String open_brace (body ++ String close_brace post)
    /\ m = String open_brace (body ++ String close_brace EmptyString)
    /\ after_open pre = None
    /\ upto_close body = None.
Proof.
  unfold re_search_json. intros H.
  destruct (after_open content) as [rest|] eqn:Ea; [|discriminate].
  destruct (upto_close rest) as [m'|] eqn:Ec; [|discriminate].
  injection H as <-.
  destruct (after_open_spec _ _ Ea) as (pre & -> & Hpre).
  destruct (upto_close_spec _ _ Ec) as (body & post & -> & -> & Hbody).
  exists pre, body, post. repeat split; assumption.
Qed.

Lemma balanced_upto_flat (s m : string) :
  upto_close s = Some m -> after_open m = None ->
  balanced_upto 0 s = Some m.
Proof.
  revert m. induction s as [|c s IH]; intros m Hm Hflat; simpl in Hm.
  - discriminate.
  - simpl. destruct (Ascii.eqb c close_brace) eqn:Ec.
    + apply Ascii.eqb_eq in Ec. subst c. injection Hm as <-. reflexivity.
    + destruct (upto_close s) as [m'|] eqn:Em; [|discriminate].
      injection Hm as <-. simpl in Hflat.
      destruct (Ascii.eqb c open_brace); [discriminate|].
      rewrite (IH m' eq_refl Hflat). reflexivity.
Qed.

(** X2. When the text between the first opening brace and the first
    closing brace after it holds no other opening brace, the text matched by
    the pattern is the first balanced region. *)
Theorem json_str_balanced_when_flat (content body : string) :
  re_search_json content = Some (String open_brace body) ->
  after_open body = None ->
  spec_first_balanced_region content = Some (String open_brace body)
  /\ json_str content = spec_json_str content.
Proof.
  intros Hm Hflat.
  assert (Hs : spec_first_balanced_region content
               = Some (String open_brace body)).
  { unfold re_search_json in Hm. unfold spec_first_balanced_region.
    destruct (after_open content) as [rest|]; [|discriminate].
    destruct (upto_close rest) as [m|] eqn:Em; [|discriminate].
    injection Hm as ->.
    rewrite (balanced_upto_flat _ _ Em Hflat). reflexivity. }
  split; [exact Hs|].
  unfold json_str, spec_json_str. rewrite Hm, Hs. reflexivity.
Qed.

(** [json_str_balanced_when_flat] on the flat object of the pizza. *)
Lemma json_str_balanced_when_flat_witness :
  spec_first_balanced_region pizza_completion = Some pizza_completion
  /\ json_str pizza_completion = spec_json_str pizza_completion.
Proof.
  apply (json_str_balanced_when_flat pizza_completion
           (substring 1 (String.length pizza_completion - 1)
                      pizza_completion)).
  - vm_compute. reflexivity.
  - vm_compute. reflexivity.
Defined.

(** ** The extractor *)

Section Extractor.

Variable json_loads : string -> result pyval.
Variable float_of_str : string -> result spec_float.

Abbreviation analyze_try := (analyze_try json_loads float_of_str).
Abbreviation analyze_expense_message :=
  (analyze_expense_message json_loads float_of_str).

(** The extractor as a function of what the [try] body does. *)
Lemma analyze_expense_message_unfold (message : string) (w : world) :
  analyze_expense_message message w =
  match analyze_try message w with
  | (Ok analysis, w') => (Ok analysis, w')
  | (Raise _, w') => (Ok NOT_AN_EXPENSE, w')
  end.
Proof.
  unfold Service.analyze_expense_message, try_except.
  destruct (analyze_try message w) as [[analysis|e] w']; reflexivity.
Qed.

(** The [try] body, once the completion and the parsed payload are
    known. *)
Lemma analyze_try_parsed (message content : string) (d : pydict) (w : world) :
  llm w message = Ok content ->
  json_loads (json_str content) = Ok (PyDict d) ->
  analyze_try message w =
  (if negb (truthy (dict_get d "is_expense" (PyBool false)))
   then Ok NOT_AN_EXPENSE
   else
     match invalid_expense_response (dict_get d "description" PyNone)
                                    (dict_get d "amount" PyNone) with
     | Raise e => Raise e
     | Ok true => Ok NOT_AN_EXPENSE
     | Ok false =>
         match py_float float_of_str (dict_get d "amount" PyNone) with
         | Raise e => Raise e
         | Ok amount_f =>
             Ok [("is_expense", PyBool true);
                 ("description", dict_get d "description" PyNone);
                 ("amount", PyFloat amount_f);
                 ("category", dict_get d "category" (PyStr "Other"))]
         end
     end,
   asked message w).
Proof.
  intros Hllm Hjson.
  unfold Service.analyze_try, bind, lift, ret, llm_ainvoke, asked.
  rewrite Hllm, Hjson. simpl.
  destruct (negb (truthy (dict_get d "is_expense" (PyBool false))));
    [reflexivity|].
  destruct (invalid_expense_response _ _) as [[|]|e]; try reflexivity.
  destruct (py_float _ _) as [f|e]; reflexivity.
Qed.

(** C3. Whatever the message, the backend and [json.loads] do,
    [analyze_expense_message] returns a dict and raises nothing; when the
    [try] body raises (the backend fails, the completion does not parse, a
    field has the wrong type), the dict is [{"is_expense": False}]. *)
Theorem analyze_expense_message_never_raises (message : string) (w : world) :
  (exists analysis w',
     analyze_expense_message message w = (Ok analysis, w'))
  /\ (forall e w',
        analyze_try message w = (Raise e, w') ->
        analyze_expense_message message w = (Ok NOT_AN_EXPENSE, w'))
  /\ (forall e,
        llm w message = Raise e ->
        analyze_expense_message message w
        = (Ok NOT_AN_EXPENSE, asked message w))
  /\ (forall content e,
        llm w message = Ok content ->
        json_loads (json_str content) = Raise e ->
        analyze_expense_message message w
        = (Ok NOT_AN_EXPENSE, asked message w))
  /\ (forall content payload,
        llm w message = Ok content ->
        json_loads (json_str content) = Ok payload ->
        (forall d, payload <> PyDict d) ->
        analyze_expense_message message w
        = (Ok NOT_AN_EXPENSE, asked message w)).
Proof.
  repeat split.
  - rewrite analyze_expense_message_unfold.
    destruct (analyze_try message w) as [[analysis|e] w']; eauto.
  - intros e w' H. rewrite analyze_expense_message_unfold, H. reflexivity.
  - intros e H. rewrite analyze_expense_message_unfold.
    unfold Service.analyze_try, bind, llm_ainvoke. rewrite H. reflexivity.
  - intros content e Hllm Hjson. rewrite analyze_expense_message_unfold.
    unfold Service.analyze_try, bind, lift, llm_ainvoke.
    rewrite Hllm, Hjson. reflexivity.
  - intros content payload Hllm Hjson Hnd.
    rewrite analyze_expense_message_unfold.
    unfold Service.analyze_try, bind, lift, llm_ainvoke.
    rewrite Hllm, Hjson.
    destruct payload; try reflexivity.
    exfalso. eapply Hnd. reflexivity.
Qed.

(** C4. When the parsed payload has [is_expense] false or absent, or
    [description] empty or absent, or [amount] absent or null, or
    [amount <= 0], the extractor returns [{"is_expense": False}]; it does
    not raise. *)
Theorem analyze_rejects_incomplete_payload
    (message content : string) (d : pydict) (w : world) :
  llm w message = Ok content ->
  json_loads (json_str content) = Ok (PyDict d) ->
  truthy (dict_get d "is_expense" (PyBool false)) = false
  \/ truthy (dict_get d "description" PyNone) = false
  \/ dict_get d "amount" PyNone = PyNone
  \/ py_le_zero (dict_get d "amount" PyNone) = Ok true ->
  analyze_expense_message message w = (Ok NOT_AN_EXPENSE, asked message w).
Proof.
  intros Hllm Hjson Hbad.
  rewrite analyze_expense_message_unfold.
  rewrite (analyze_try_parsed _ _ _ _ Hllm Hjson).
  destruct (truthy (dict_get d "is_expense" (PyBool false))) eqn:Ei;
    simpl; [|reflexivity].
  unfold invalid_expense_response.
  destruct (truthy (dict_get d "description" PyNone)) eqn:Ed;
    simpl; [|reflexivity].
  destruct Hbad as [H|[H|[H|H]]]; try discriminate.
  - rewrite H. reflexivity.
  - destruct (truthy (dict_get d "amount" PyNone)); simpl; [|reflexivity].
    rewrite H. reflexivity.
Qed.

(** C1, as the code has it. For a payload whose category is a string
    [c], member of [EXPENSE_CATEGORIES] or not, the extractor passes [c]
    on unchanged.  It returns the expense, with the category [c], when
    [is_expense] is truthy, [description] is truthy, [amount] is truthy,
    [amount <= 0] is [False] and [float(amount)] returns; and whenever it
    returns an expense, the category of that expense is [c].  The category
    takes no part in the decision: a second payload with the same
    [is_expense], [description] and [amount], whatever its category, is
    accepted when this one is and rejected when this one is. *)
Theorem analyze_category_passed_through
    (message content : string) (d : pydict) (c : string) (w : world) :
  llm w message = Ok content ->
  json_loads (json_str content) = Ok (PyDict d) ->
  dict_get d "category" PyNone = PyStr c ->
  (forall amount_f : spec_float,
     truthy (dict_get d "is_expense" (PyBool false)) = true ->
     invalid_expense_response (dict_get d "description" PyNone)
                              (dict_get d "amount" PyNone) = Ok false ->
     py_float float_of_str (dict_get d "amount" PyNone) = Ok amount_f ->
     analyze_expense_message message w =
     (Ok [("is_expense", PyBool true);
          ("description", dict_get d "description" PyNone);
          ("amount", PyFloat amount_f);
          ("category", PyStr c)],
      asked message w))
  /\ (forall (analysis : pydict) (w' : world),
        analyze_expense_message message w = (Ok analysis, w') ->
        truthy (dict_get analysis "is_expense" (PyBool false)) = true ->
        dict_get analysis "category" PyNone = PyStr c)
  /\ (forall (message2 content2 : string) (d2 : pydict) (w2 : world),
        llm w2 message2 = Ok content2 ->
        json_loads (json_str content2) = Ok (PyDict d2) ->
        dict_get d2 "is_expense" (PyBool false)
        = dict_get d "is_expense" (PyBool false) ->
        dict_get d2 "description" PyNone = dict_get d "description" PyNone ->
        dict_get d2 "amount" PyNone = dict_get d "amount" PyNone ->
        exists analysis analysis2 : pydict,
          fst (analyze_expense_message message w) = Ok analysis
          /\ fst (analyze_expense_message message2 w2) = Ok analysis2
          /\ dict_get analysis2 "is_expense" (PyBool false)
             = dict_get analysis "is_expense" (PyBool false)).
Proof.
  intros Hllm Hjson Hc.
  assert (Hcat : dict_get d "category" (PyStr "Other") = PyStr c).
  { clear - Hc. induction d as [|[k v] d IH]; simpl in *; [discriminate|].
    destruct (String.eqb k "category"); [exact Hc|exact (IH Hc)]. }
  split; [|split].
  - intros amount_f Hi Hv Hf.
    rewrite analyze_expense_message_unfold.
    rewrite (analyze_try_parsed _ _ _ _ Hllm Hjson).
    rewrite Hi, Hv, Hf, Hcat. reflexivity.
  - intros analysis w'.
    rewrite analyze_expense_message_unfold.
    rewrite (analyze_try_parsed _ _ _ _ Hllm Hjson).
    destruct (negb (truthy (dict_get d "is_expense" (PyBool false)))).
    { intros [= <- _]. discriminate. }
    destruct (invalid_expense_response _ _) as [[|]|e].
    + intros [= <- _]. discriminate.
    + destruct (py_float _ _) as [f|e].
      * intros [= <- _] _. simpl. exact Hcat.
      * intros [= <- _]. discriminate.
    + intros [= <- _]. discriminate.
  - intros message2 content2 d2 w2 Hllm2 Hjson2 Hi Hd Ha.
    rewrite !analyze_expense_message_unfold.
    rewrite (analyze_try_parsed _ _ _ _ Hllm Hjson).
    rewrite (analyze_try_parsed _ _ _ _ Hllm2 Hjson2).
    rewrite Hi, Hd, Ha.
    destruct (negb (truthy (dict_get d "is_expense" (PyBool false)))).
    { do 2 eexists. repeat split. }
    destruct (invalid_expense_response _ _) as [[|]|e].
    + do 2 eexists. repeat split.
    + destruct (py_float _ _) as [f|e]; do 2 eexists; repeat split.
    + do 2 eexists. repeat split.
Qed.

End Extractor.

(** [analyze_rejects_incomplete_payload] on the answer
    [{"is_expense": false}]. *)
Lemma analyze_rejects_incomplete_payload_witness :
  llm (world_answering hello_completion) "Hello there" = Ok hello_completion
  /\ analyze_expense_message json_loads_demo float_of_no_str "Hello there"
       (world_answering hello_completion)
     = (Ok NOT_AN_EXPENSE,
        asked "Hello there" (world_answering hello_completion)).
Proof.
  split; [reflexivity|].
  apply (analyze_rejects_incomplete_payload json_loads_demo float_of_no_str
           "Hello there" hello_completion [("is_expense", PyBool false)]).
  - reflexivity.
  - vm_compute. reflexivity.
  - left. reflexivity.
Defined.

(** [analyze_category_passed_through] on the answer with the category
    ["Groceries"]: the extractor returns the expense with that category,
    as it returns the expense for the answer that differs in the category
    only. *)
Lemma analyze_category_passed_through_witness :
  analyze_expense_message json_loads_demo float_of_no_str "Pizza 20 bucks"
    (world_answering groceries_completion)
  = (Ok [("is_expense", PyBool true);
         ("description", PyStr "Pizza");
         ("amount", PyFloat (S754_finite false 5629499534213120 (-48)));
         ("category", PyStr "Groceries")],
     asked "Pizza 20 bucks" (world_answering groceries_completion))
  /\ dict_get
       [("is_expense", PyBool true);
        ("description", PyStr "Pizza");
        ("amount", PyFloat (S754_finite false 5629499534213120 (-48)));
        ("category", PyStr "Groceries")] "category" PyNone
     = PyStr "Groceries"
  /\ exists analysis analysis2 : pydict,
       fst (analyze_expense_message json_loads_demo float_of_no_str
              "Pizza 20 bucks" (world_answering groceries_completion))
       = Ok analysis
       /\ fst (analyze_expense_message json_loads_demo float_of_no_str
                 "Pizza 20 bucks" (world_answering pizza_completion))
          = Ok analysis2
       /\ dict_get analysis2 "is_expense" (PyBool false)
          = dict_get analysis "is_expense" (PyBool false).
Proof.
  assert (H := analyze_category_passed_through json_loads_demo
                 float_of_no_str "Pizza 20 bucks" groceries_completion
                 [("is_expense", PyBool true); ("description", PyStr "Pizza");
                  ("amount", PyInt 20); ("category", PyStr "Groceries")]
                 "Groceries" (world_answering groceries_completion)
                 eq_refl eq_refl eq_refl).
  destruct H as (Hreturned & Hkept & Hdecision).
  split; [|split].
  - apply (Hreturned (S754_finite false 5629499534213120 (-48)));
      reflexivity.
  - apply (Hkept _ (asked "Pizza 20 bucks"
                      (world_answering groceries_completion)));
      [|reflexivity].
    apply (Hreturned (S754_finite false 5629499534213120 (-48)));
      reflexivity.
  - apply (Hdecision "Pizza 20 bucks" pizza_completion
             [("is_expense", PyBool true); ("description", PyStr "Pizza");
              ("amount", PyInt 20); ("category", PyStr "Food")]
             (world_answering pizza_completion));
      reflexivity.
Defined.

(** C2, at a completion that holds an object inside the object. The text
    handed to [json.loads] stops at the first closing brace: it is the head
    of the object, not the balanced object that the specification
    describes. *)
Theorem json_str_stops_at_first_closing_brace :
  json_str nested_completion = nested_head
  /\ spec_json_str nested_completion = nested_completion
  /\ json_str nested_completion <> spec_json_str nested_completion.
Proof.
  assert (H1 : json_str nested_completion = nested_head)
    by (vm_compute; reflexivity).
  assert (H2 : spec_json_str nested_completion = nested_completion)
    by (vm_compute; reflexivity).
  repeat split; try assumption.
  rewrite H1, H2. vm_compute. discriminate.
Qed.

(** ** The store *)

(** Round trips change nothing but the faults to come. *)
Lemma db_round_trip_run (w : world) :
  exists w',
    db_round_trip w
    = (if faulty 1 w then Raise SQLAlchemyError else Ok tt, w')
    /\ users w' = users w /\ expenses w' = expenses w
    /\ utcnow w' = utcnow w /\ llm w' = llm w
    /\ llm_calls w' = llm_calls w
    /\ db_faults w' = drop 1 (db_faults w).
Proof.
  unfold db_round_trip, faulty.
  destruct w as [us es [|[|] fs] now l calls]; simpl;
    eexists; (split; [reflexivity|]); simpl; repeat split;
    try reflexivity; destruct fs; reflexivity.
Qed.

(** The lookup of the gate: [true] exactly when neither of its two round
    trips fails and the table has a row for the id. *)
Lemma is_user_whitelisted_run (telegram_id : string) (w : world) :
  exists w',
    is_user_whitelisted telegram_id w
    = (Ok (negb (faulty 2 w)
           && bool_decide (is_Some (resolved_id w telegram_id))), w')
    /\ users w' = users w /\ expenses w' = expenses w
    /\ utcnow w' = utcnow w /\ llm w' = llm w
    /\ llm_calls w' = llm_calls w.
Proof.
  unfold is_user_whitelisted, try_except, bind, engine_connect,
    execute_CHECK_USER_WHITELIST, db_round_trip, get_world, ret, faulty,
    resolved_id.
  destruct w as [us es fs now l calls].
  destruct fs as [|[|] [|[|] fs]]; simpl;
    eexists;
    (split;
     [ first [ reflexivity
             | destruct (fetchone (CHECK_USER_WHITELIST us telegram_id));
               reflexivity ]
     | repeat split; reflexivity ]).
Qed.

(** C8. [is_user_whitelisted], and [is_user_authorized] which calls it,
    return a bool and raise nothing; the bool is [False] when the identifier
    has no row in [users] and when a round trip of the lookup fails; the
    tables are left as they were. *)
Theorem is_user_whitelisted_false_on_absence_and_failure
    (telegram_id : string) (w : world) :
  exists b w',
    is_user_whitelisted telegram_id w = (Ok b, w')
    /\ is_user_authorized telegram_id w = (Ok b, w')
    /\ (CHECK_USER_WHITELIST (users w) telegram_id = [] -> b = false)
    /\ (faulty 2 w = true -> b = false)
    /\ (b = true <->
        faulty 2 w = false /\ is_Some (resolved_id w telegram_id))
    /\ users w' = users w /\ expenses w' = expenses w.
Proof.
  destruct (is_user_whitelisted_run telegram_id w)
    as (w' & Hrun & Hu & He & _).
  eexists; exists w'. split; [exact Hrun|].
  split; [exact Hrun|].
  repeat split; try assumption.
  - intros Habs. unfold resolved_id. rewrite Habs. simpl.
    apply andb_false_r.
  - intros Hf. rewrite Hf. reflexivity.
  - apply andb_true_iff in H. destruct H as [H _].
    apply negb_true_iff in H. exact H.
  - apply andb_true_iff in H. destruct H as [_ H].
    apply bool_decide_eq_true in H. exact H.
  - intros [Hf Hs]. rewrite Hf. simpl.
    apply bool_decide_eq_true. exact Hs.
Qed.

(** The lookup of [get_user_id]: the id of the first row for the
    identifier, [None] when there is none or a round trip fails. *)
Lemma get_user_id_run (telegram_id : string) (w : world) :
  exists w',
    get_user_id telegram_id w
    = (Ok (if faulty 2 w then None else resolved_id w telegram_id), w')
    /\ users w' = users w /\ expenses w' = expenses w
    /\ utcnow w' = utcnow w /\ llm w' = llm w
    /\ llm_calls w' = llm_calls w
    /\ (faulty 2 w = false -> db_faults w' = drop 2 (db_faults w)).
Proof.
  unfold get_user_id, try_except, bind, engine_connect,
    execute_CHECK_USER_WHITELIST, db_round_trip, get_world, ret, faulty,
    resolved_id.
  destruct w as [us es fs now l calls].
  destruct fs as [|[|] [|[|] fs]]; simpl;
    eexists;
    (split;
     [ first [ reflexivity
             | destruct (fetchone (CHECK_USER_WHITELIST us telegram_id));
               reflexivity ]
     | repeat split; try reflexivity; try discriminate ]).
Qed.


Section Pipeline.

Variable json_loads : string -> result pyval.
Variable float_of_str : string -> result spec_float.
Variable py_str : pyval -> string.
Variable adapt_text : pyval -> option string.
Variable adapt_numeric : pyval -> Q.

Abbreviation analyze_try := (analyze_try json_loads float_of_str).
Abbreviation analyze_expense_message :=
  (analyze_expense_message json_loads float_of_str).
Abbreviation accepted_amount := (accepted_amount float_of_str).
Abbreviation process_expense :=
  (process_expense json_loads float_of_str py_str adapt_text adapt_numeric).
Abbreviation save_expense := (save_expense adapt_text adapt_numeric).

(** [save_expense] uses up to five round trips: its connection, the two of
    [get_user_id], the insert and the commit.  It returns [True] exactly
    when none of them fails and the resolved id is neither [None] nor [0],
    and then the table has one more row. *)
Lemma save_expense_run (telegram_id : string)
    (description amount category : pyval) (w : world) :
  exists w',
    save_expense telegram_id description amount category w
    = (Ok (negb (faulty 5 w) && negb (not_user_id (resolved_id w telegram_id))), w')
    /\ users w' = users w
    /\ utcnow w' = utcnow w /\ llm w' = llm w
    /\ llm_calls w' = llm_calls w
    /\ expenses w' =
       if negb (faulty 5 w) && negb (not_user_id (resolved_id w telegram_id))
       then (expenses w ++
             [ExpenseRow (default 0 (resolved_id w telegram_id))
                (adapt_text description) (adapt_numeric amount)
                (adapt_text category) (Some (utcnow w))])%list
       else expenses w.
Proof.
  unfold save_expense, get_user_id, try_except, bind, engine_connect,
    execute_CHECK_USER_WHITELIST, execute_INSERT_EXPENSE, conn_commit,
    datetime_utcnow, db_round_trip, get_world, ret, faulty, resolved_id.
  destruct w as [us es fs now l calls].
  destruct fs as [|[|] [|[|] [|[|] [|[|] [|[|] fs]]]]]; simpl.
  all: destruct (fetchone (CHECK_USER_WHITELIST us telegram_id)) as [[|p|p]|]; simpl.
  all: eexists; (split; [reflexivity | repeat split; reflexivity]).
Qed.

(** The result of the extractor is [{"is_expense": False}] or a dict with
    the four keys, a truthy description and the float of an amount that
    passed the checks. *)
Lemma analyze_expense_message_shape (message : string) (w : world) :
  exists analysis,
    analyze_expense_message message w = (Ok analysis, asked message w)
    /\ (analysis = NOT_AN_EXPENSE
        \/ exists description amount amount_f category,
             analysis = [("is_expense", PyBool true);
                         ("description", description);
                         ("amount", PyFloat amount_f);
                         ("category", category)]
             /\ truthy description = true
             /\ accepted_amount amount amount_f).
Proof.
  rewrite analyze_expense_message_unfold.
  destruct (llm w message) as [content|e] eqn:Hllm.
  2:{ unfold Service.analyze_try, bind, llm_ainvoke. rewrite Hllm.
      eexists; split; [reflexivity|left; reflexivity]. }
  destruct (json_loads (json_str content)) as [payload|e] eqn:Hjson.
  2:{ unfold Service.analyze_try, bind, lift, llm_ainvoke.
      rewrite Hllm, Hjson.
      eexists; split; [reflexivity|left; reflexivity]. }
  destruct payload as [| | | | |l|d];
    try (unfold Service.analyze_try, bind, lift, llm_ainvoke;
         rewrite Hllm, Hjson;
         eexists; split; [reflexivity|left; reflexivity]).
  rewrite (analyze_try_parsed _ _ _ _ _ _ Hllm Hjson).
  destruct (negb (truthy (dict_get d "is_expense" (PyBool false)))).
  { eexists; split; [reflexivity|left; reflexivity]. }
  destruct (invalid_expense_response _ _) as [[|]|e] eqn:Hinv;
    try (eexists; split; [reflexivity|left; reflexivity]).
  destruct (py_float _ _) as [f|e] eqn:Hf;
    try (eexists; split; [reflexivity|left; reflexivity]).
  eexists; split; [reflexivity|right].
  exists (dict_get d "description" PyNone), (dict_get d "amount" PyNone), f,
    (dict_get d "category" (PyStr "Other")).
  split; [reflexivity|].
  unfold invalid_expense_response in Hinv.
  destruct (truthy (dict_get d "description" PyNone)); simpl in Hinv;
    [|discriminate].
  destruct (truthy (dict_get d "amount" PyNone)) eqn:Ht; simpl in Hinv;
    [|discriminate].
  repeat split; assumption.
Qed.


(** [process_expense] returns a dict and raises nothing. *)
Lemma process_expense_never_raises (telegram_id message : string) (w : world) :
  exists r w', process_expense telegram_id message w = (Ok r, w').
Proof.
  unfold Service.process_expense, is_user_authorized.
  destruct (is_user_whitelisted_run telegram_id w) as (w1 & Hauth & _).
  rewrite (bind_Ok _ _ _ _ _ Hauth).
  destruct (negb _ && _); simpl; [|unfold ret; eauto].
  destruct (analyze_expense_message_shape message w1)
    as (analysis & Han & Hshape).
  rewrite (bind_Ok _ _ _ _ _ Han).
  destruct Hshape as [->|(description & amount & amount_f & category
                          & -> & Hd & _)].
  { simpl. unfold ret. eauto. }
  simpl. unfold invalid_expense_data. rewrite Hd. simpl.
  unfold bind at 1, lift. simpl.
  destruct (SFleb amount_f float0); [unfold ret; eauto|].
  destruct (save_expense_run telegram_id description
              (PyFloat amount_f) category (asked message w1))
    as (w3 & Hsave & _).
  rewrite (bind_Ok _ _ _ _ _ Hsave).
  destruct (negb _ && _); unfold ret; eauto.
Qed.

(** C5. When the gate answers [False] for the identifier,
    [process_expense] returns the dict of the unauthorized outcome in the
    world the gate left, and the backend was sent nothing: the extractor
    is not reached. *)
Theorem unauthorized_never_reaches_extractor
    (telegram_id message : string) (w w1 : world) :
  is_user_authorized telegram_id w = (Ok false, w1) ->
  process_expense telegram_id message w = (Ok Unauthorized, w1)
  /\ llm_calls w1 = llm_calls w.
Proof.
  intros Hgate. split.
  - unfold Service.process_expense.
    rewrite (bind_Ok _ _ _ _ _ Hgate). reflexivity.
  - unfold is_user_authorized in Hgate.
    destruct (is_user_whitelisted_run telegram_id w)
      as (w' & Hrun & _ & _ & _ & _ & Hcalls).
    rewrite Hrun in Hgate. injection Hgate as _ <-. exact Hcalls.
Qed.

(** C6. [save_expense] returns a bool and raises nothing.  It returns
    [False] when one of its round trips fails and when the identifier
    resolves to no id; then the table is as it was.  It returns [True]
    exactly when none of its five round trips (its connect, the connect
    and the select of [get_user_id], the insert, the commit) fails and the
    identifier resolves to an id other than [0]; then the table has
    exactly one more row, with the resolved id,
    the given fields and the current time, added by the one commit.
    [process_expense] raises nothing either, and when its call of
    [save_expense] returns [False] it returns the dict of the
    persistence-failure outcome. *)
Theorem save_expense_false_on_persistence_error
    (telegram_id message : string) (description amount category : pyval)
    (w : world) :
  (exists b w',
     save_expense telegram_id description amount category w = (Ok b, w')
     /\ (faulty 5 w = true -> b = false)
     /\ (resolved_id w telegram_id = None -> b = false)
     /\ users w' = users w
     /\ (b = false -> expenses w' = expenses w)
     /\ (b = true ->
         exists user_id,
           resolved_id w telegram_id = Some user_id
           /\ expenses w' =
              (expenses w ++
               [ExpenseRow user_id (adapt_text description)
                  (adapt_numeric amount) (adapt_text category)
                  (Some (utcnow w))])%list)
     /\ (b = true <->
         faulty 5 w = false
         /\ exists user_id,
              resolved_id w telegram_id = Some user_id /\ user_id <> 0))
  /\ (exists r w', process_expense telegram_id message w = (Ok r, w'))
  /\ (forall w1 analysis w2 w3,
        is_user_authorized telegram_id w = (Ok true, w1) ->
        analyze_expense_message message w1 = (Ok analysis, w2) ->
        truthy (dict_get analysis "is_expense" (PyBool false)) = true ->
        invalid_expense_data (dict_get analysis "description" PyNone)
          (dict_get analysis "amount" (PyInt 0)) = Ok false ->
        save_expense telegram_id
          (dict_get analysis "description" PyNone)
          (dict_get analysis "amount" (PyInt 0))
          (dict_get analysis "category" (PyStr "Other")) w2
        = (Ok false, w3) ->
        process_expense telegram_id message w = (Ok PersistenceFailed, w3)).
Proof.
  split; [|split].
  - destruct (save_expense_run telegram_id description amount category w)
      as (w' & Hrun & Hu & _ & _ & _ & He).
    eexists; exists w'. split; [exact Hrun|].
    split; [|split; [|split; [|split; [|split]]]].
    + intros Hf. rewrite Hf. reflexivity.
    + intros Hn. rewrite Hn. apply andb_false_r.
    + exact Hu.
    + intros Hb. rewrite Hb in He. exact He.
    + intros Hb. rewrite Hb in He.
      apply andb_true_iff in Hb. destruct Hb as [_ Hb].
      destruct (resolved_id w telegram_id) as [user_id|];
        [|discriminate].
      exists user_id. split; [reflexivity|exact He].
    + split.
      * intros Hb. apply andb_true_iff in Hb. destruct Hb as [Hf Hb].
        apply negb_true_iff in Hf. split; [exact Hf|].
        destruct (resolved_id w telegram_id) as [user_id|];
          [|discriminate].
        exists user_id. split; [reflexivity|].
        simpl in Hb. apply negb_true_iff in Hb.
        apply Z.eqb_neq. exact Hb.
      * intros (Hf & user_id & Hid & Hnz).
        rewrite Hf, Hid. simpl. apply negb_true_iff.
        apply Z.eqb_neq. exact Hnz.
  - apply process_expense_never_raises.
  - intros w1 analysis w2 w3 Hgate Han Hexp Hvalid Hsave.
    unfold Service.process_expense.
    rewrite (bind_Ok _ _ _ _ _ Hgate). simpl.
    rewrite (bind_Ok _ _ _ _ _ Han). rewrite Hexp. simpl.
    rewrite Hvalid. unfold bind at 1, lift. simpl.
    rewrite (bind_Ok _ _ _ _ _ Hsave). reflexivity.
Qed.

(** C10. When the identifier resolves to the id [0], [save_expense] returns
    [False] and inserts nothing, even when no round trip fails and
    [get_user_id], called after the connection is open, returns that id. *)
Theorem save_expense_false_for_user_id_zero
    (telegram_id : string) (description amount category : pyval)
    (w : world) :
  resolved_id w telegram_id = Some 0 ->
  (exists w',
     save_expense telegram_id description amount category w = (Ok false, w')
     /\ expenses w' = expenses w)
  /\ (faulty 3 w = false ->
      exists w1 w2,
        engine_connect w = (Ok [], w1)
        /\ get_user_id telegram_id w1 = (Ok (Some 0), w2)).
Proof.
  intros Hid. split.
  - destruct (save_expense_run telegram_id description amount category w)
      as (w' & Hrun & _ & _ & _ & _ & He).
    rewrite Hid in Hrun, He. simpl in Hrun, He.
    rewrite andb_false_r in Hrun, He.
    exists w'. split; assumption.
  - unfold resolved_id in Hid.
    unfold get_user_id, try_except, bind, engine_connect,
      execute_CHECK_USER_WHITELIST, db_round_trip, get_world, ret, faulty.
    destruct w as [us es fs now l calls]. simpl in Hid.
    destruct fs as [|[|] [|[|] [|[|] fs]]]; simpl; intros Hf;
      try discriminate;
      do 2 eexists; (split; [reflexivity|]); simpl; rewrite Hid;
      reflexivity.
Qed.

End Pipeline.

(** [unauthorized_never_reaches_extractor] for an identifier that has no
    row in [users]. *)
Lemma unauthorized_never_reaches_extractor_witness :
  process_expense json_loads_demo float_of_no_str str_of text_of numeric_of
    "999999999" "Pizza 20 bucks" (world_answering pizza_completion)
  = (Ok Unauthorized, world_answering pizza_completion)
  /\ llm_calls (world_answering pizza_completion) = [].
Proof.
  apply (unauthorized_never_reaches_extractor json_loads_demo
           float_of_no_str str_of text_of numeric_of
           "999999999" "Pizza 20 bucks" (world_answering pizza_completion)
           (world_answering pizza_completion)).
  reflexivity.
Defined.

(** [save_expense_false_for_user_id_zero] in a world where the user ["42"]
    has the id [0] and nothing fails. *)
Lemma save_expense_false_for_user_id_zero_witness :
  let w := MkWorld [UserRow 0 "42"] [] [] 1700000000
                   (fun _ => Ok pizza_completion) [] in
  (exists w',
     save_expense text_of numeric_of "42" (PyStr "Pizza")
       (PyFloat (S754_finite false 5629499534213120 (-48))) (PyStr "Food") w
     = (Ok false, w')
     /\ expenses w' = expenses w)
  /\ (faulty 3 w = false ->
      exists w1 w2,
        engine_connect w = (Ok [], w1)
        /\ get_user_id "42" w1 = (Ok (Some 0), w2)).
Proof.
  intros w.
  apply (save_expense_false_for_user_id_zero text_of numeric_of "42"
           (PyStr "Pizza")
           (PyFloat (S754_finite false 5629499534213120 (-48)))
           (PyStr "Food") w).
  reflexivity.
Defined.

(** [analyze_expense_message_never_raises] when the backend cannot be
    reached. *)
Lemma analyze_expense_message_never_raises_witness :
  analyze_expense_message json_loads_demo float_of_no_str "Pizza 20 bucks"
    world_backend_down
  = (Ok NOT_AN_EXPENSE, asked "Pizza 20 bucks" world_backend_down).
Proof.
  apply (proj1 (proj2 (proj2
           (analyze_expense_message_never_raises json_loads_demo
              float_of_no_str "Pizza 20 bucks" world_backend_down)))
           ConnectionError).
  reflexivity.
Defined.

(** [save_expense_false_on_persistence_error] when the database goes down
    after the gate answered: the outcome is the persistence failure and no
    row is stored.  And when nothing fails, for the user ["42"] of id [7]:
    [save_expense] returns [True] and the table, empty before, holds the
    one row. *)
Lemma save_expense_false_on_persistence_error_witness :
  process_expense json_loads_demo float_of_no_str str_of text_of numeric_of
    "42" "Pizza 20 bucks" world_db_outage
  = (Ok PersistenceFailed,
     asked "Pizza 20 bucks" (with_db_faults [] world_db_outage))
  /\ exists w',
       save_expense text_of numeric_of "42" (PyStr "Pizza") (PyInt 20)
         (PyStr "Food") (world_answering pizza_completion) = (Ok true, w')
       /\ expenses w'
          = [ExpenseRow 7 (Some "Pizza") (20 # 1) (Some "Food")
               (Some 1700000000)].
Proof.
  split; cycle 1.
  { destruct (proj1
                (save_expense_false_on_persistence_error json_loads_demo
                   float_of_no_str str_of text_of numeric_of
                   "42" "Pizza 20 bucks" (PyStr "Pizza") (PyInt 20)
                   (PyStr "Food") (world_answering pizza_completion)))
      as (b & w' & Hrun & _ & _ & _ & _ & Hrow & Htrue).
    assert (Hb : b = true).
    { apply Htrue. split; [reflexivity|].
      exists 7. split; [reflexivity|discriminate]. }
    rewrite Hb in Hrun. exists w'. split; [exact Hrun|].
    destruct (Hrow Hb) as (user_id & Hid & Hexp).
    injection Hid as <-. exact Hexp. }
  apply (proj2 (proj2
           (save_expense_false_on_persistence_error json_loads_demo
              float_of_no_str str_of text_of numeric_of
              "42" "Pizza 20 bucks" PyNone PyNone PyNone world_db_outage))
           (with_db_faults [true] world_db_outage)
           [("is_expense", PyBool true);
            ("description", PyStr "Pizza");
            ("amount", PyFloat (S754_finite false 5629499534213120 (-48)));
            ("category", PyStr "Food")]
           (asked "Pizza 20 bucks" (with_db_faults [true] world_db_outage))).
  - reflexivity.
  - vm_compute. reflexivity.
  - reflexivity.
  - reflexivity.
  - reflexivity.
Defined.

(** C1, a counterexample. The backend answers with the category
    ["Groceries"], which is not in [EXPENSE_CATEGORIES]; the extractor
    returns it unchanged, and the row that [process_expense] stores has
    it. *)
Lemma category_outside_the_list_is_kept :
  let w := world_answering groceries_completion in
  ~ In "Groceries" EXPENSE_CATEGORIES
  /\ fst (analyze_expense_message json_loads_demo float_of_no_str
            "Pizza 20 bucks" w)
     = Ok [("is_expense", PyBool true);
           ("description", PyStr "Pizza");
           ("amount", PyFloat (S754_finite false 5629499534213120 (-48)));
           ("category", PyStr "Groceries")]
  /\ map e_category
       (expenses
          (snd (process_expense json_loads_demo float_of_no_str str_of
                  text_of numeric_of "42" "Pizza 20 bucks" w)))
     = [Some "Groceries"].
Proof.
  intros w. split; [|split].
  - unfold EXPENSE_CATEGORIES. simpl. intros H.
    repeat (destruct H as [H|H]; [discriminate H|]). exact H.
  - vm_compute. reflexivity.
  - vm_compute. reflexivity.
Qed.

(** ** The two read paths *)

Lemma sum_Z_Permutation (l l' : list Z) : l ≡ₚ l' -> sum_Z l = sum_Z l'.
Proof. induction 1; simpl; lia. Qed.

Lemma sum_Q_Permutation (l l' : list Q) : l ≡ₚ l' -> sum_Q l == sum_Q l'.
Proof.
  induction 1; simpl.
  - reflexivity.
  - rewrite IHPermutation. reflexivity.
  - ring.
  - etransitivity; eassumption.
Qed.

Section Groups.
Context {K A : Type} `{EqDecision K} (key : A -> K).

Lemma group_cons (c : K) (e : A) (rows : list A) :
  group key c (e :: rows)
  = if bool_decide (key e = c) then e :: group key c rows else group key c rows.
Proof.
  unfold group. rewrite filter_cons. cbv beta.
  destruct (decide (key e = c)) as [H|H].
  - rewrite (bool_decide_eq_true_2 _ H).
    rewrite decide_True; [reflexivity|exact I].
  - rewrite (bool_decide_eq_false_2 _ H).
    rewrite decide_False; [reflexivity|intros []].
Qed.

(** The sizes of the groups add up to the number of rows. *)
Lemma group_sizes (ks : list K) (rows : list A) :
  NoDup ks -> (forall e, e ∈ rows -> key e ∈ ks) ->
  sum_Z (map (fun c => Z.of_nat (length (group key c rows))) ks)
  = Z.of_nat (length rows).
Proof.
  intros Hnd. revert rows.
  induction Hnd as [|c ks Hc Hnd IH]; intros rows Hin.
  - destruct rows as [|e rows]; [reflexivity|].
    exfalso. specialize (Hin e). 
    eapply not_elem_of_nil. apply Hin. left.
  - simpl.
    assert (Hrest : map (fun c' => Z.of_nat (length (group key c' rows))) ks
                    = map (fun c' => Z.of_nat (length (group key c'
                         (filter (fun e => key e ≠ c) rows)))) ks).
    { apply map_ext_in. intros c' Hc'. f_equal. f_equal.
      unfold group. rewrite list_filter_filter.
      apply list_filter_iff. intros e. split.
      - intros He. apply bool_decide_unpack in He. split.
        + apply bool_decide_pack. exact He.
        + intros Hec. apply Hc. apply list_elem_of_In.
          rewrite <- Hec, He. exact Hc'.
      - intros [He _]. exact He. }
    rewrite Hrest. rewrite IH.
    + clear. induction rows as [|e rows IHr]; [reflexivity|].
      rewrite group_cons, filter_cons.
      destruct (decide (key e = c)) as [E|E].
      * rewrite (bool_decide_eq_true_2 _ E).
        rewrite decide_False by (intros Hn; apply Hn; exact E).
        simpl length. lia.
      * rewrite (bool_decide_eq_false_2 _ E).
        rewrite decide_True by exact E.
        simpl length. lia.
    + intros e He. apply list_elem_of_filter in He. destruct He as [Hne He].
      specialize (Hin e He). apply elem_of_cons in Hin.
      destruct Hin as [Heq|Hin]; [exfalso; exact (Hne Heq)|exact Hin].
Qed.

(** The totals of the groups add up to the total of the rows. *)
Lemma group_totals (f : A -> Q) (ks : list K) (rows : list A) :
  NoDup ks -> (forall e, e ∈ rows -> key e ∈ ks) ->
  sum_Q (map (fun c => sum_Q (map f (group key c rows))) ks)
  == sum_Q (map f rows).
Proof.
  intros Hnd. revert rows.
  induction Hnd as [|c ks Hc Hnd IH]; intros rows Hin.
  - destruct rows as [|e rows]; [reflexivity|].
    exfalso. specialize (Hin e).
    eapply not_elem_of_nil. apply Hin. left.
  - simpl.
    assert (Hrest : map (fun c' => sum_Q (map f (group key c' rows))) ks
                    = map (fun c' => sum_Q (map f (group key c'
                         (filter (fun e => key e ≠ c) rows)))) ks).
    { apply map_ext_in. intros c' Hc'. f_equal. f_equal.
      unfold group. rewrite list_filter_filter.
      apply list_filter_iff. intros e. split.
      - intros He. apply bool_decide_unpack in He. split.
        + apply bool_decide_pack. exact He.
        + intros Hec. apply Hc. apply list_elem_of_In.
          rewrite <- Hec, He. exact Hc'.
      - intros [He _]. exact He. }
    rewrite Hrest. rewrite IH.
    + clear. induction rows as [|e rows IHr]; [reflexivity|].
      rewrite group_cons, filter_cons.
      destruct (decide (key e = c)) as [E|E].
      * rewrite (bool_decide_eq_true_2 _ E).
        rewrite decide_False by (intros Hn; apply Hn; exact E).
        simpl. rewrite <- IHr. ring.
      * rewrite (bool_decide_eq_false_2 _ E).
        rewrite decide_True by exact E.
        simpl. rewrite <- IHr. ring.
    + intros e He. apply list_elem_of_filter in He. destruct He as [Hne He].
      specialize (Hin e He). apply elem_of_cons in Hin.
      destruct Hin as [Heq|Hin]; [exfalso; exact (Hne Heq)|exact Hin].
Qed.
End Groups.

Lemma fold_left_items (rows : list expense_row) (acc : list expense_item) :
  fold_left (fun expenses row => (expenses ++ [item_of_row row])%list) rows acc
  = (acc ++ map item_of_row rows)%list.
Proof.
  revert acc. induction rows as [|row rows IH]; intros acc; simpl.
  - rewrite app_nil_r. reflexivity.
  - rewrite IH, <- app_assoc. reflexivity.
Qed.

Lemma fold_left_stats_step (rows : list stats_row) (st : stats) :
  total_expenses (fold_left stats_step rows st)
  = total_expenses st + sum_Z (map sr_count rows)
  /\ total_amount (fold_left stats_step rows st)
     = fold_left float_add (map row_total rows) (total_amount st).
Proof.
  revert st. induction rows as [|row rows IH]; intros st; simpl.
  - split; [lia|reflexivity].
  - destruct (IH (stats_step st row)) as [-> ->]. simpl. split; [lia|reflexivity].
Qed.

Lemma get_user_expenses_run (telegram_id : string) (limit : Z) (w : world) :
  faulty 2 w = false -> 0 <= limit ->
  exists w',
    get_user_expenses telegram_id limit w
    = (Ok (map item_of_row (SELECT_EXPENSES w telegram_id limit)), w').
Proof.
  intros Hf Hl.
  unfold get_user_expenses, try_except, bind, engine_connect,
    execute_SELECT_EXPENSES, db_round_trip, get_world, ret, lift.
  unfold faulty in Hf.
  assert (Hlim : (limit <? 0)%Z = false) by (apply Z.ltb_ge; exact Hl).
  destruct w as [us es fs now l calls]. simpl in Hf.
  destruct fs as [|[|] [|[|] fs]]; simpl in *; try discriminate;
    rewrite Hlim; simpl; rewrite fold_left_items; simpl; eauto.
Qed.

Lemma get_expense_stats_run (telegram_id : string) (w : world) :
  faulty 2 w = false ->
  exists w',
    get_expense_stats telegram_id w
    = (Ok (fold_left stats_step (SELECT_STATS w telegram_id) empty_stats), w').
Proof.
  intros Hf.
  unfold get_expense_stats, try_except, bind, engine_connect,
    execute_SELECT_STATS, db_round_trip, get_world, ret.
  unfold faulty in Hf.
  destruct w as [us es fs now l calls]. simpl in Hf.
  destruct fs as [|[|] [|[|] fs]]; simpl in *; try discriminate; eauto.
Qed.

Lemma SELECT_STATS_counts (w : world) (telegram_id : string) :
  sum_Z (map sr_count (SELECT_STATS w telegram_id))
  = Z.of_nat (length (joined_expenses w telegram_id)).
Proof.
  unfold SELECT_STATS.
  rewrite (sum_Z_Permutation _ (map sr_count (group_by_category (joined_expenses w telegram_id)))).
  2:{ apply Permutation_map. apply merge_sort_Permutation. }
  unfold group_by_category. rewrite map_map. simpl.
  apply (group_sizes e_category).
  - apply NoDup_remove_dups.
  - intros e He. apply elem_of_remove_dups. apply list_elem_of_fmap_2' with e; [exact He|reflexivity].
Qed.

Lemma SELECT_STATS_totals (w : world) (telegram_id : string) :
  sum_Q (map sr_total_amount (SELECT_STATS w telegram_id))
  == sum_Q (map e_amount (joined_expenses w telegram_id)).
Proof.
  unfold SELECT_STATS.
  rewrite (sum_Q_Permutation _
             (map sr_total_amount
                (group_by_category (joined_expenses w telegram_id)))).
  2:{ apply Permutation_map. apply merge_sort_Permutation. }
  unfold group_by_category. rewrite map_map. simpl.
  apply (group_totals e_category).
  - apply NoDup_remove_dups.
  - intros e He. apply elem_of_remove_dups.
    apply list_elem_of_fmap_2' with e; [exact He|reflexivity].
Qed.

(** With a limit that covers them, the list query returns all the rows of
    the user, in some order. *)
Lemma SELECT_EXPENSES_all (w : world) (telegram_id : string) (limit : Z) :
  Z.of_nat (length (joined_expenses w telegram_id)) <= limit ->
  SELECT_EXPENSES w telegram_id limit ≡ₚ joined_expenses w telegram_id.
Proof.
  intros Hl. unfold SELECT_EXPENSES.
  rewrite take_ge.
  - apply merge_sort_Permutation.
  - rewrite (Permutation_length (merge_sort_Permutation _ _)). lia.
Qed.

(** C7, as the code has it. When no round trip fails and the limit is at
    least the number of the user's expenses, [get_expense_stats] counts as
    many expenses as [get_user_expenses] lists, and the per-category sums
    that the aggregate query returns add up, as exact numerics, to the sum
    of the amounts of the listed rows.  The total that
    [get_expense_stats] returns is the float sum of the per-category sums,
    each converted to a float on its own. *)
Theorem stats_agree_with_recent_expenses
    (telegram_id : string) (limit : Z) (w : world) :
  faulty 2 w = false ->
  Z.of_nat (length (joined_expenses w telegram_id)) <= limit ->
  exists st items w1 w2,
    get_expense_stats telegram_id w = (Ok st, w1)
    /\ get_user_expenses telegram_id limit w = (Ok items, w2)
    /\ items = map item_of_row (SELECT_EXPENSES w telegram_id limit)
    /\ total_expenses st = Z.of_nat (length items)
    /\ sum_Q (map sr_total_amount (SELECT_STATS w telegram_id))
       == sum_Q (map e_amount (SELECT_EXPENSES w telegram_id limit))
    /\ total_amount st
       = float_sum (map row_total (SELECT_STATS w telegram_id)).
Proof.
  intros Hf Hl.
  destruct (get_expense_stats_run telegram_id w Hf) as (w1 & Hstats).
  destruct (get_user_expenses_run telegram_id limit w Hf) as (w2 & Hlist);
    [lia|].
  pose proof (SELECT_EXPENSES_all w telegram_id limit Hl) as Hall.
  destruct (fold_left_stats_step (SELECT_STATS w telegram_id) empty_stats)
    as [Hcount Htotal].
  do 2 eexists. exists w1, w2.
  split; [exact Hstats|]. split; [exact Hlist|]. split; [reflexivity|].
  split; [|split].
  - rewrite Hcount, SELECT_STATS_counts. simpl.
    rewrite length_map, (Permutation_length Hall). reflexivity.
  - rewrite SELECT_STATS_totals.
    symmetry. apply sum_Q_Permutation. apply Permutation_map. exact Hall.
  - exact Htotal.
Qed.

(** [stats_agree_with_recent_expenses] for the two expenses of the user
    ["42"], with the limit 10. *)
Lemma stats_agree_with_recent_expenses_witness :
  exists st items w1 w2,
    get_expense_stats "42" world_two_expenses = (Ok st, w1)
    /\ get_user_expenses "42" 10 world_two_expenses = (Ok items, w2)
    /\ items = map item_of_row (SELECT_EXPENSES world_two_expenses "42" 10)
    /\ total_expenses st = Z.of_nat (length items)
    /\ sum_Q (map sr_total_amount (SELECT_STATS world_two_expenses "42"))
       == sum_Q (map e_amount (SELECT_EXPENSES world_two_expenses "42" 10))
    /\ total_amount st
       = float_sum (map row_total (SELECT_STATS world_two_expenses "42")).
Proof.
  apply (stats_agree_with_recent_expenses "42" 10 world_two_expenses).
  - reflexivity.
  - vm_compute. discriminate.
Defined.

(** C7, a counterexample. The user has two expenses of one category, of 0.1
    and 0.2, and the limit is 10.  [get_expense_stats] returns the total
    0.3, the float of the exact sum; the amounts that [get_user_expenses]
    lists are the floats of 0.2 and of 0.1, whose sum is
    0.30000000000000004 as a float and is not 0.3 as an exact value
    either. *)
Lemma stats_total_is_not_the_sum_of_recent_amounts :
  Z.of_nat (length (joined_expenses world_two_expenses "42")) <= 10
  /\ match fst (get_expense_stats "42" world_two_expenses),
           fst (get_user_expenses "42" 10 world_two_expenses) with
     | Ok st, Ok items =>
         total_expenses st = Z.of_nat (length items)
         /\ total_amount st = S754_finite false 5404319552844595 (-54)
         /\ float_sum (map amount items)
            = S754_finite false 5404319552844596 (-54)
         /\ total_amount st <> float_sum (map amount items)
         /\ ~ float_value (total_amount st)
              == sum_Q (map float_value (map amount items))
     | _, _ => False
     end.
Proof.
  split; [vm_compute; discriminate|].
  vm_compute. repeat split; try discriminate.
Qed.

(** ** The amount of an accepted payload *)

Lemma shr_1_lower (d : Z) (mrs : shr_record) :
  0 <= d -> 2 ^ (d + 1) <= shr_m mrs -> 2 ^ d <= shr_m (shr_1 mrs).
Proof.
  intros Hd. replace (d + 1) with (Z.succ d) by lia.
  rewrite Z.pow_succ_r by exact Hd.
  destruct mrs as [m r s]. simpl.
  assert (0 < 2 ^ d) by (apply Z.pow_pos_nonneg; lia).
  destruct m as [|[p|p|]|[p|p|]]; simpl; lia.
Qed.

Lemma iter_shr_1_lower (p : positive) (d : Z) (mrs : shr_record) :
  0 <= d -> 2 ^ (d + Zpos p) <= shr_m mrs ->
  2 ^ d <= shr_m (SpecFloat.iter_pos shr_1 p mrs).
Proof.
  revert d mrs. induction p as [p IH|p IH|]; intros d mrs Hd H; simpl.
  - apply IH; [exact Hd|]. apply IH; [lia|].
    apply shr_1_lower; [lia|].
    replace (d + Z.pos p + Z.pos p + 1) with (d + Z.pos p~1) by lia.
    exact H.
  - apply IH; [exact Hd|]. apply IH; [lia|].
    replace (d + Z.pos p + Z.pos p) with (d + Z.pos p~0) by lia.
    exact H.
  - apply shr_1_lower; assumption.
Qed.

Lemma digits2_pos_lower (m : positive) :
  2 ^ (Zpos (digits2_pos m) - 1) <= Zpos m.
Proof.
  induction m as [m IH|m IH|]; simpl digits2_pos.
  - rewrite Pos2Z.inj_succ.
    replace (Z.succ (Z.pos (digits2_pos m)) - 1)
      with (Z.succ (Z.pos (digits2_pos m) - 1)) by lia.
    rewrite Z.pow_succ_r by lia. lia.
  - rewrite Pos2Z.inj_succ.
    replace (Z.succ (Z.pos (digits2_pos m)) - 1)
      with (Z.succ (Z.pos (digits2_pos m) - 1)) by lia.
    rewrite Z.pow_succ_r by lia. lia.
  - simpl. lia.
Qed.

Lemma shr_record_of_loc_m (m : Z) (l : location) :
  shr_m (shr_record_of_loc m l) = m.
Proof. destruct l as [|[| |]]; reflexivity. Qed.

(** Rounding to the format keeps a positive mantissa positive. *)
Lemma shr_fexp_positive (m : positive) (e : Z) (l : location) :
  emin prec emax <= e ->
  0 < shr_m (fst (shr_fexp prec emax (Zpos m) e l))
  /\ emin prec emax <= snd (shr_fexp prec emax (Zpos m) e l).
Proof.
  intros He. unfold shr_fexp, shr.
  pose proof (digits2_pos_lower m) as Hm.
  set (n := fexp prec emax (Zdigits2 (Z.pos m) + e) - e).
  assert (Hn : n < Zpos (digits2_pos m)).
  { subst n. unfold fexp, emin, prec, emax in *. simpl Zdigits2. lia. }
  destruct n as [|p|p] eqn:En; simpl.
  - rewrite shr_record_of_loc_m. lia.
  - split; [|lia].
    apply Z.lt_le_trans with (2 ^ 0); [reflexivity|].
    apply iter_shr_1_lower; [lia|].
    rewrite shr_record_of_loc_m.
    etransitivity; [|exact Hm].
    apply Z.pow_le_mono_r; lia.
  - rewrite shr_record_of_loc_m. lia.
Qed.

Lemma round_nearest_even_lower (m : Z) (l : location) :
  m <= round_nearest_even m l.
Proof.
  destruct l as [|[| |]]; simpl; try lia.
  destruct (Z.even m); lia.
Qed.

Lemma binary_round_aux_nonzero (sx : bool) (m : positive) (e : Z)
    (l : location) :
  emin prec emax <= e ->
  match binary_round_aux prec emax sx (Zpos m) e l with
  | S754_finite s _ _ | S754_infinity s => s = sx
  | _ => False
  end.
Proof.
  intros He. unfold binary_round_aux.
  destruct (shr_fexp_positive m e l He) as [Hm1 He1].
  destruct (shr_fexp prec emax (Z.pos m) e l) as [mrs' e'].
  simpl in Hm1, He1.
  pose proof (round_nearest_even_lower (shr_m mrs') (loc_of_shr_record mrs'))
    as Hr.
  destruct (round_nearest_even (shr_m mrs') (loc_of_shr_record mrs'))
    as [|m2|m2] eqn:Em2; try lia.
  destruct (shr_fexp_positive m2 e' loc_Exact He1) as [Hm2 _].
  destruct (shr_fexp prec emax (Z.pos m2) e' loc_Exact) as [mrs'' e''].
  simpl in Hm2.
  destruct (shr_m mrs'') as [|m3|m3]; try lia.
  destruct (Z.leb e'' _); reflexivity.
Qed.

(** [float(n)] of a positive int is not [<= 0]. *)
Lemma float_of_int_positive (z : Z) (f : spec_float) :
  0 < z -> float_of_int z = Ok f -> SFleb f float0 = false.
Proof.
  intros Hz. unfold float_of_int, binary_normalize.
  destruct z as [|p|p]; try lia.
  unfold binary_round.
  destruct (shl_align p 0 (fexp prec emax (Z.pos (digits2_pos p) + 0)))
    as [mz ez] eqn:Ea.
  assert (He : emin prec emax <= ez).
  { unfold shl_align in Ea.
    destruct (fexp prec emax (Z.pos (digits2_pos p) + 0) - 0) eqn:Ed;
      injection Ea as <- <-; unfold fexp, emin, prec, emax in *; lia. }
  pose proof (binary_round_aux_nonzero false mz ez loc_Exact He) as H.
  destruct (binary_round_aux prec emax false (Z.pos mz) ez loc_Exact)
    as [s| s| |s m e]; try contradiction.
  - discriminate.
  - intros Hf. injection Hf as <-. subst s. reflexivity.
Qed.

Section Validation.

Variable json_loads : string -> result pyval.
Variable float_of_str : string -> result spec_float.
Variable py_str : pyval -> string.
Variable adapt_text : pyval -> option string.
Variable adapt_numeric : pyval -> Q.

Abbreviation accepted_amount := (accepted_amount float_of_str).
Abbreviation process_expense :=
  (process_expense json_loads float_of_str py_str adapt_text adapt_numeric).

(** The float of an amount that passed the checks of the extractor is not
    [<= 0]: it is greater than zero or it is nan. *)
Lemma accepted_amount_not_le_zero (amount : pyval) (amount_f : spec_float) :
  accepted_amount amount amount_f -> SFleb amount_f float0 = false.
Proof.
  intros (Ht & Hle & Hf).
  destruct amount as [|b|z|g|s|l|d]; simpl in Ht, Hle, Hf;
    try discriminate.
  - destruct b; [|discriminate]. injection Hf as <-. reflexivity.
  - injection Hle as Hle. apply Z.leb_gt in Hle.
    apply (float_of_int_positive z); assumption.
  - injection Hf as <-. injection Hle as Hle. exact Hle.
Qed.

(** X1. With the extractor of the service, [process_expense] never returns
    the dict of the invalid-extraction outcome: its own check of the
    description and the amount always passes. *)
Theorem invalid_extraction_unreachable
    (telegram_id message : string) (w : world) :
  exists r w',
    process_expense telegram_id message w = (Ok r, w')
    /\ r <> InvalidExtraction.
Proof.
  unfold Service.process_expense, is_user_authorized.
  destruct (is_user_whitelisted_run telegram_id w) as (w1 & Hauth & _).
  rewrite (bind_Ok _ _ _ _ _ Hauth).
  destruct (negb _ && _); simpl;
    [|unfold ret; do 2 eexists; split; [reflexivity|discriminate]].
  destruct (analyze_expense_message_shape json_loads float_of_str message w1)
    as (analysis & Han & Hshape).
  rewrite (bind_Ok _ _ _ _ _ Han).
  destruct Hshape as [->|(description & amount & amount_f & category
                          & -> & Hd & Ha)].
  { simpl. unfold ret. do 2 eexists; split; [reflexivity|discriminate]. }
  simpl. unfold invalid_expense_data. rewrite Hd. simpl.
  unfold bind at 1, lift. simpl.
  rewrite (accepted_amount_not_le_zero _ _ Ha).
  destruct (save_expense_run adapt_text adapt_numeric telegram_id description
              (PyFloat amount_f) category (asked message w1))
    as (w3 & Hsave & _).
  rewrite (bind_Ok _ _ _ _ _ Hsave).
  destruct (negb _ && _); unfold ret;
    do 2 eexists; (split; [reflexivity|discriminate]).
Qed.

End Validation.

(** C9, at a completion whose amount is [NaN]. The extractor accepts it:
    nan is truthy and [nan <= 0] is false.  The result has [is_expense]
    true and the amount nan, which is not greater than zero, and
    [process_expense] records the expense. *)
Theorem analyze_accepts_nan_amount :
  let w := world_answering nan_completion in
  json_str nan_completion = nan_completion
  /\ fst (analyze_expense_message json_loads_demo float_of_no_str
            "Pizza NaN" w)
     = Ok [("is_expense", PyBool true);
           ("description", PyStr "Pizza");
           ("amount", PyFloat float_nan);
           ("category", PyStr "Food")]
  /\ SFltb float0 float_nan = false
  /\ fst (process_expense json_loads_demo float_of_no_str str_of text_of
            numeric_of "42" "Pizza NaN" w)
     = Ok [("success", PyBool true);
           ("category", PyStr "Food");
           ("description", PyStr "Pizza");
           ("amount", PyFloat float_nan);
           ("message", PyStr (MESSAGES_EXPENSE_ADDED "Food"))].
Proof.
  intros w. repeat split; vm_compute; reflexivity.
Qed.

(** * Further properties *)

#[local] Existing Instance added_at_desc_dec.
#[local] Existing Instance total_amount_desc_dec.

(** ** The brace pattern, as an equivalence *)

Lemma after_open_None (s : string) :
  after_open s = None <-> occurs open_brace s = false.
Proof.
  induction s as [|c s IH]; simpl; [tauto|].
  destruct (Ascii.eqb c open_brace); simpl; [split; discriminate|exact IH].
Qed.

Lemma upto_close_None (s : string) :
  upto_close s = None <-> occurs close_brace s = false.
Proof.
  induction s as [|c s IH]; simpl; [tauto|].
  destruct (Ascii.eqb c close_brace); simpl; [split; discriminate|].
  destruct (upto_close s); [|tauto].
  split; [discriminate|]. intros H. apply IH in H. discriminate.
Qed.

Lemma after_open_app (pre rest : string) :
  occurs open_brace pre = false ->
  after_open (pre ++ String open_brace rest) = Some rest.
Proof.
  induction pre as [|c pre IH]; simpl; intros H.
  - reflexivity.
  - apply orb_false_iff in H. destruct H as [Hc H].
    rewrite Hc. apply IH. exact H.
Qed.

Lemma upto_close_app (body post : string) :
  occurs close_brace body = false ->
  upto_close (body ++ String close_brace post)
  = Some (body ++ String close_brace EmptyString).
Proof.
  induction body as [|c body IH]; simpl; intros H.
  - reflexivity.
  - apply orb_false_iff in H. destruct H as [Hc H].
    rewrite Hc, (IH H). reflexivity.
Qed.

(** X13. The pattern matches exactly the text from the first opening brace
    of the completion to the first closing brace after it; it matches
    nothing exactly when no closing brace follows the first opening
    brace, and then the stripped completion is parsed. *)
Theorem re_search_json_first_brace_pair (content : string) :
  (forall m,
     re_search_json content = Some m <->
     exists pre body post,
       content = pre ++ String open_brace (body ++ String close_brace post)
       /\ m = String open_brace (body ++ String close_brace EmptyString)
       /\ occurs open_brace pre = false
       /\ occurs close_brace body = false)
  /\ (re_search_json content = None <->
      match after_open content with
      | None => True
      | Some rest => occurs close_brace rest = false
      end)
  /\ (re_search_json content = None -> json_str content = strip content).
Proof.
  split; [|split].
  - intros m. split.
    + intros H. destruct (re_search_json_spec _ _ H)
        as (pre & body & post & -> & -> & Hpre & Hbody).
      exists pre, body, post. repeat split.
      * apply after_open_None. exact Hpre.
      * apply upto_close_None. exact Hbody.
    + intros (pre & body & post & -> & -> & Hpre & Hbody).
      unfold re_search_json.
      rewrite (after_open_app _ _ Hpre), (upto_close_app _ _ Hbody).
      reflexivity.
  - unfold re_search_json.
    destruct (after_open content) as [rest|]; [|tauto].
    rewrite <- upto_close_None.
    destruct (upto_close rest); split; congruence.
  - intros H. unfold json_str. rewrite H. reflexivity.
Qed.

(** ** The gate and the resolution of the id *)

(** X3. [get_user_id] and [is_user_whitelisted] run the same lookup: from
    the same world they leave the same world, and the gate answers [True]
    exactly when [get_user_id] returns an id. *)
Theorem gate_agrees_with_get_user_id (telegram_id : string) (w : world) :
  exists user_id w',
    get_user_id telegram_id w = (Ok user_id, w')
    /\ is_user_whitelisted telegram_id w
       = (Ok (bool_decide (is_Some user_id)), w').
Proof.
  unfold get_user_id, is_user_whitelisted, try_except, bind, engine_connect,
    execute_CHECK_USER_WHITELIST, db_round_trip, get_world, ret.
  destruct w as [us es fs now l calls].
  destruct fs as [|[|] [|[|] fs]]; simpl;
    try (do 2 eexists; split; reflexivity);
    destruct (fetchone (CHECK_USER_WHITELIST us telegram_id));
    do 2 eexists; split; reflexivity.
Qed.

(** ** What the extractor decides *)

Section Decision.

Variable json_loads : string -> result pyval.
Variable float_of_str : string -> result spec_float.

Abbreviation analyze_expense_message :=
  (analyze_expense_message json_loads float_of_str).

(** X7. Once the completion parses, the result of the extractor is a
    function of the payload alone: an expense exactly for a dict with a
    truthy [is_expense], a truthy [description] and an [amount] that is
    [True], a positive int that fits a float, or a float that is not zero
    and not [<= 0].  An amount given as a text, a list or a dict is
    refused whatever [float] would make of it, and every other payload
    gives [{"is_expense": False}]. *)
Theorem analyze_expense_message_decides (message content : string)
    (payload : pyval) (w : world) :
  llm w message = Ok content ->
  json_loads (json_str content) = Ok payload ->
  analyze_expense_message message w
  = (Ok (analysis_of payload), asked message w).
Proof.
  intros Hllm Hjson.
  rewrite analyze_expense_message_unfold.
  destruct payload as [|b|z|f|s|l|d];
    try (unfold Service.analyze_try, bind, lift, llm_ainvoke;
         rewrite Hllm, Hjson; reflexivity).
  rewrite (analyze_try_parsed _ _ _ _ _ _ Hllm Hjson).
  unfold analysis_of, invalid_expense_response.
  destruct (truthy (dict_get d "is_expense" (PyBool false))); simpl;
    [|reflexivity].
  destruct (truthy (dict_get d "description" PyNone)); simpl;
    [|reflexivity].
  destruct (dict_get d "amount" PyNone) as [|b|z|f|s|l|d']; simpl;
    try reflexivity.
  - destruct b; reflexivity.
  - destruct (Z.eqb_spec z 0) as [->|Hz]; simpl; [reflexivity|].
    destruct (Z.leb_spec z 0) as [Hle|Hgt]; simpl.
    + destruct (Z.ltb_spec 0 z); [lia|reflexivity].
    + destruct (Z.ltb_spec 0 z); [|lia].
      destruct (float_of_int z); reflexivity.
  - destruct f as [s0|s0| |s0 m e]; simpl; try reflexivity.
    + destruct s0; reflexivity.
    + destruct s0; reflexivity.
  - destruct (String.eqb s ""); reflexivity.
  - destruct l; reflexivity.
  - destruct d'; reflexivity.
Qed.

End Decision.

(** [analyze_expense_message_decides] on an answer whose amount is the text
    ["20"], with a [float] that reads that text: the answer is refused. *)
Lemma analyze_expense_message_decides_witness :
  analyze_expense_message
    (json_loads_of [(text_amount_completion, text_amount_payload)])
    float_of_twenty "Pizza 20 bucks"
    (world_answering text_amount_completion)
  = (Ok NOT_AN_EXPENSE,
     asked "Pizza 20 bucks" (world_answering text_amount_completion)).
Proof.
  apply (analyze_expense_message_decides
           (json_loads_of [(text_amount_completion, text_amount_payload)])
           float_of_twenty "Pizza 20 bucks" text_amount_completion
           text_amount_payload (world_answering text_amount_completion)).
  - reflexivity.
  - vm_compute. reflexivity.
Defined.

(** ** The outcomes of the pipeline *)

Section Outcomes.

Variable json_loads : string -> result pyval.
Variable float_of_str : string -> result spec_float.
Variable py_str : pyval -> string.
Variable adapt_text : pyval -> option string.
Variable adapt_numeric : pyval -> Q.

Abbreviation analyze_expense_message :=
  (analyze_expense_message json_loads float_of_str).
Abbreviation process_expense :=
  (process_expense json_loads float_of_str py_str adapt_text adapt_numeric).
Abbreviation save_expense := (save_expense adapt_text adapt_numeric).

(** The four ways [process_expense] ends, with what each leaves in the
    tables and in the record of the requests to the backend. *)
Lemma process_expense_run (telegram_id message : string) (w : world) :
  exists r w',
    process_expense telegram_id message w = (Ok r, w')
    /\ users w' = users w /\ utcnow w' = utcnow w /\ llm w' = llm w
    /\ ((r = Unauthorized /\ expenses w' = expenses w
         /\ llm_calls w' = llm_calls w)
        \/ (r = NotAnExpense /\ expenses w' = expenses w
            /\ llm_calls w' = message :: llm_calls w)
        \/ (r = PersistenceFailed /\ expenses w' = expenses w
            /\ llm_calls w' = message :: llm_calls w)
        \/ (exists description amount_f category user_id,
              r = [("success", PyBool true);
                   ("category", category);
                   ("description", description);
                   ("amount", PyFloat amount_f);
                   ("message",
                    PyStr (MESSAGES_EXPENSE_ADDED (py_str category)))]
              /\ truthy description = true
              /\ SFleb amount_f float0 = false
              /\ resolved_id w telegram_id = Some user_id
              /\ user_id <> 0
              /\ expenses w' =
                 (expenses w ++
                  [ExpenseRow user_id (adapt_text description)
                     (adapt_numeric (PyFloat amount_f))
                     (adapt_text category) (Some (utcnow w))])%list
              /\ llm_calls w' = message :: llm_calls w)).
Proof.
  unfold Service.process_expense, is_user_authorized.
  destruct (is_user_whitelisted_run telegram_id w)
    as (w1 & Hauth & Hu1 & He1 & Hn1 & Hl1 & Hc1).
  rewrite (bind_Ok _ _ _ _ _ Hauth).
  destruct (negb _ && _); simpl.
  2:{ unfold ret. do 2 eexists. split; [reflexivity|].
      repeat split; try assumption. left. repeat split; assumption. }
  destruct (analyze_expense_message_shape json_loads float_of_str message w1)
    as (analysis & Han & Hshape).
  rewrite (bind_Ok _ _ _ _ _ Han).
  destruct Hshape as [->|(description & amount & amount_f & category
                          & -> & Hd & Ha)].
  { simpl. unfold ret. do 2 eexists. split; [reflexivity|].
    simpl. repeat split; try assumption.
    right; left. repeat split; [assumption|]. rewrite Hc1. reflexivity. }
  simpl. unfold invalid_expense_data. rewrite Hd. simpl.
  unfold bind at 1, lift. simpl.
  pose proof (accepted_amount_not_le_zero float_of_str _ _ Ha) as Hpos.
  rewrite Hpos.
  destruct (save_expense_run adapt_text adapt_numeric telegram_id description
              (PyFloat amount_f) category (asked message w1))
    as (w3 & Hsave & Hu3 & Hn3 & Hl3 & Hc3 & He3).
  rewrite (bind_Ok _ _ _ _ _ Hsave).
  simpl in Hu3, Hn3, Hl3, Hc3, He3.
  assert (Hres : resolved_id (asked message w1) telegram_id
                 = resolved_id w telegram_id).
  { unfold resolved_id. simpl. rewrite Hu1. reflexivity. }
  rewrite Hres in *.
  destruct (negb (faulty 5 (asked message w1))
            && negb (not_user_id (resolved_id w telegram_id))) eqn:Hb;
    unfold ret; do 2 eexists; (split; [reflexivity|]);
    repeat split; try congruence.
  - right; right; right.
    apply andb_true_iff in Hb. destruct Hb as [_ Hb].
    destruct (resolved_id w telegram_id) as [user_id|] eqn:Hid;
      [|discriminate].
    exists description, amount_f, category, user_id.
    simpl in Hb. apply negb_true_iff in Hb. apply Z.eqb_neq in Hb.
    repeat split; try assumption; try congruence.
    rewrite He3. simpl. rewrite He1, Hn1. reflexivity.
  - right; right; left. repeat split; congruence.
Qed.

(** X4. [process_expense] changes the table of expenses only when it
    reports success, and then by exactly one row: the row of the resolved
    user with the description, amount and category that the returned dict
    reports and the current time.  On every failure outcome the tables are
    as they were. *)
Theorem process_expense_stores_only_on_success
    (telegram_id message : string) (w : world) :
  exists r w',
    process_expense telegram_id message w = (Ok r, w')
    /\ users w' = users w
    /\ ((dict_get r "success" PyNone = PyBool false
         /\ expenses w' = expenses w)
        \/ (dict_get r "success" PyNone = PyBool true
            /\ exists user_id,
                 resolved_id w telegram_id = Some user_id
                 /\ user_id <> 0
                 /\ expenses w' =
                    (expenses w ++
                     [ExpenseRow user_id
                        (adapt_text (dict_get r "description" PyNone))
                        (adapt_numeric (dict_get r "amount" PyNone))
                        (adapt_text (dict_get r "category" PyNone))
                        (Some (utcnow w))])%list)).
Proof.
  destruct (process_expense_run telegram_id message w)
    as (r & w' & Hrun & Hu & _ & _ & Hcases).
  exists r, w'. split; [exact Hrun|]. split; [exact Hu|].
  destruct Hcases as [(-> & He & _)|[(-> & He & _)|[(-> & He & _)|Hrec]]];
    try (left; split; [reflexivity|exact He]).
  destruct Hrec as (description & amount_f & category & user_id & -> & _
                    & _ & Hid & Hnz & He & _).
  right. split; [reflexivity|].
  exists user_id. repeat split; assumption.
Qed.

(** X5. [process_expense] sends the backend nothing when it answers that
    the user is not authorized, and exactly one request, with the message
    it was given, on every other outcome. *)
Theorem process_expense_asks_backend_once
    (telegram_id message : string) (w : world) :
  exists r w',
    process_expense telegram_id message w = (Ok r, w')
    /\ ((r = Unauthorized /\ llm_calls w' = llm_calls w)
        \/ (r <> Unauthorized
            /\ llm_calls w' = message :: llm_calls w)).
Proof.
  destruct (process_expense_run telegram_id message w)
    as (r & w' & Hrun & _ & _ & _ & Hcases).
  exists r, w'. split; [exact Hrun|].
  destruct Hcases as [(-> & _ & Hc)|[(-> & _ & Hc)|[(-> & _ & Hc)|Hrec]]].
  - left. split; [reflexivity|exact Hc].
  - right. split; [discriminate|exact Hc].
  - right. split; [discriminate|exact Hc].
  - destruct Hrec as (description & amount_f & category & user_id & -> & _
                      & _ & _ & _ & _ & Hc).
    right. split; [discriminate|exact Hc].
Qed.

(** X6. For an authorized user, a backend that fails and a completion that
    [json.loads] refuses both end as the non-expense outcome: the failure
    is not told apart from a message that is not an expense, and nothing
    is stored. *)
Theorem backend_failure_is_not_an_expense
    (telegram_id message : string) (w w1 : world) :
  is_user_authorized telegram_id w = (Ok true, w1) ->
  (exists e, llm w message = Raise e)
  \/ (exists content e,
        llm w message = Ok content
        /\ json_loads (json_str content) = Raise e) ->
  process_expense telegram_id message w
  = (Ok NotAnExpense, asked message w1)
  /\ expenses w1 = expenses w.
Proof.
  intros Hgate Hfail.
  unfold is_user_authorized in Hgate.
  destruct (is_user_whitelisted_run telegram_id w)
    as (w' & Hrun & _ & He & _ & Hl & _).
  rewrite Hgate in Hrun. injection Hrun as _ <-.
  split; [|exact He].
  assert (Han : analyze_expense_message message w1
                = (Ok NOT_AN_EXPENSE, asked message w1)).
  { rewrite analyze_expense_message_unfold.
    unfold Service.analyze_try, bind, lift, llm_ainvoke. rewrite Hl.
    destruct Hfail as [(e & Hllm)|(content & e & Hllm & Hjson)].
    - rewrite Hllm. reflexivity.
    - rewrite Hllm, Hjson. reflexivity. }
  unfold Service.process_expense.
  rewrite (bind_Ok _ _ _ _ _ Hgate). simpl.
  rewrite (bind_Ok _ _ _ _ _ Han). reflexivity.
Qed.

End Outcomes.

(** [backend_failure_is_not_an_expense] for the user ["42"] when the
    backend cannot be reached. *)
Lemma backend_failure_is_not_an_expense_witness :
  process_expense json_loads_demo float_of_no_str str_of text_of numeric_of
    "42" "Pizza 20 bucks" world_backend_down
  = (Ok NotAnExpense, asked "Pizza 20 bucks" world_backend_down)
  /\ expenses world_backend_down = expenses world_backend_down.
Proof.
  apply (backend_failure_is_not_an_expense json_loads_demo float_of_no_str
           str_of text_of numeric_of "42" "Pizza 20 bucks"
           world_backend_down world_backend_down).
  - reflexivity.
  - left. exists ConnectionError. reflexivity.
Defined.

(** ** Saving and reading back *)

Lemma filter_bool_cons {A : Type} (p : A -> bool) (x : A) (l : list A) :
  filter (fun y => p y) (x :: l)
  = if p x then x :: filter (fun y => p y) l else filter (fun y => p y) l.
Proof. rewrite filter_cons. destruct (p x); reflexivity. Qed.

Lemma joined_expenses_app (us : list user_row) (es es' : list expense_row)
    (fs : list bool) (now : Z) (l : string -> result string)
    (calls : list string) (telegram_id : string) :
  joined_expenses (MkWorld us (es ++ es') fs now l calls) telegram_id
  = (joined_expenses (MkWorld us es fs now l calls) telegram_id
     ++ joined_expenses (MkWorld us es' fs now l calls) telegram_id)%list.
Proof. unfold joined_expenses. simpl. apply flat_map_app. Qed.

(** No row of [tbl] has the id [user_id]. *)
Lemma join_none (tbl : list user_row) (user_id : Z) (other : string) :
  user_id ∉ map u_id tbl ->
  filter (fun u => Z.eqb user_id (u_id u)
                   && String.eqb (u_telegram_id u) other) tbl = [].
Proof.
  induction tbl as [|v tbl IH]; intros Hn; [reflexivity|].
  rewrite filter_bool_cons.
  destruct (Z.eqb_spec user_id (u_id v)) as [E|E].
  - exfalso. apply Hn. rewrite E. simpl. apply elem_of_cons. left.
    reflexivity.
  - simpl. apply IH. intros Hin. apply Hn. simpl. apply elem_of_cons.
    right. exact Hin.
Qed.

Lemma resolved_in_table (tbl : list user_row) (user_id : Z)
    (telegram_id : string) :
  fetchone (CHECK_USER_WHITELIST tbl telegram_id) = Some user_id ->
  user_id ∈ map u_id tbl.
Proof.
  unfold fetchone, CHECK_USER_WHITELIST.
  induction tbl as [|v tbl IH]; intros Hres; [discriminate|].
  rewrite filter_bool_cons in Hres.
  destruct (String.eqb (u_telegram_id v) telegram_id).
  - simpl in Hres. injection Hres as <-. simpl. apply elem_of_cons. left.
    reflexivity.
  - simpl. apply elem_of_cons. right. apply IH. exact Hres.
Qed.

(** With ids that are a primary key, the resolved id joins with one user
    row for its own identifier and with none for another. *)
Lemma join_resolved (tbl : list user_row) (user_id : Z)
    (telegram_id other : string) :
  NoDup (map u_id tbl) ->
  fetchone (CHECK_USER_WHITELIST tbl telegram_id) = Some user_id ->
  length (filter (fun u => Z.eqb user_id (u_id u)
                           && String.eqb (u_telegram_id u) other) tbl)
  = if String.eqb telegram_id other then 1%nat else 0%nat.
Proof.
  induction tbl as [|u tbl IH]; intros Hnd Hres.
  - discriminate.
  - simpl in Hnd. apply NoDup_cons in Hnd. destruct Hnd as [Hu Hnd].
    pose proof Hres as Hres0.
    unfold fetchone, CHECK_USER_WHITELIST in Hres.
    rewrite filter_bool_cons in Hres. rewrite filter_bool_cons.
    destruct (String.eqb (u_telegram_id u) telegram_id) eqn:Et.
    + simpl in Hres. injection Hres as <-.
      apply String.eqb_eq in Et. subst telegram_id.
      rewrite (join_none tbl (u_id u) other Hu).
      rewrite Z.eqb_refl. simpl.
      destruct (String.eqb (u_telegram_id u) other); reflexivity.
    + specialize (IH Hnd Hres).
      destruct (Z.eqb_spec user_id (u_id u)) as [E|E].
      * exfalso. apply Hu. rewrite <- E.
        apply (resolved_in_table tbl user_id telegram_id). exact Hres.
      * simpl. exact IH.
Qed.

#[local] Instance added_at_desc_total : Total added_at_desc.
Proof.
  intros a b. unfold added_at_desc.
  destruct (e_added_at a), (e_added_at b); try tauto. lia.
Qed.

#[local] Instance added_at_desc_trans : Transitive added_at_desc.
Proof.
  intros a b c. unfold added_at_desc.
  destruct (e_added_at a), (e_added_at b), (e_added_at c); try tauto. lia.
Qed.

(** The first row of a sorted list that holds a row newer than all the
    others is that row. *)
Lemma newest_row_first (old : list expense_row) (row : expense_row)
    (now : Z) :
  e_added_at row = Some now ->
  (forall e, e ∈ old -> exists t, e_added_at e = Some t /\ t < now) ->
  head (merge_sort added_at_desc (old ++ [row])) = Some row.
Proof.
  intros Hrow Hold.
  pose proof (merge_sort_Permutation added_at_desc (old ++ [row])) as Hperm.
  pose proof (StronglySorted_merge_sort added_at_desc (old ++ [row]))
    as Hsorted.
  destruct (merge_sort added_at_desc (old ++ [row])) as [|h rest].
  - apply Permutation_nil_l in Hperm.
    destruct old; discriminate.
  - simpl. f_equal.
    apply StronglySorted_cons in Hsorted. destruct Hsorted as [Hall _].
    assert (Hh : h ∈ (old ++ [row])%list).
    { rewrite <- Hperm. apply elem_of_cons. left. reflexivity. }
    apply elem_of_app in Hh. destruct Hh as [Hh|Hh].
    + exfalso.
      assert (Hr : row ∈ h :: rest).
      { rewrite Hperm. apply elem_of_app. right.
        apply list_elem_of_singleton. reflexivity. }
      apply elem_of_cons in Hr. destruct Hr as [->|Hr].
      * destruct (Hold _ Hh) as (t & Ht & Hlt).
        rewrite Hrow in Ht. injection Ht as <-. lia.
      * rewrite Forall_forall in Hall. specialize (Hall _ Hr).
        destruct (Hold _ Hh) as (t & Ht & Hlt).
        unfold added_at_desc in Hall. rewrite Ht, Hrow in Hall. lia.
    + apply list_elem_of_singleton in Hh. exact Hh.
Qed.


(** The head of a mapped prefix of at least one element. *)
Lemma take_S_head {A B : Type} (n : nat) (f : A -> B) (l : list A) :
  (0 < n)%nat -> head (map f (take n l)) = option_map f (head l).
Proof. destruct n; [lia|]. destruct l; reflexivity. Qed.

Section ReadBack.

Variable adapt_text : pyval -> option string.
Variable adapt_numeric : pyval -> Q.

Abbreviation save_expense := (save_expense adapt_text adapt_numeric).

(** The rows of the join after a successful save, when the ids of [users]
    are a primary key. *)
Lemma save_expense_joined
    (telegram_id : string) (description amount category : pyval)
    (w w' : world) :
  NoDup (map u_id (users w)) ->
  save_expense telegram_id description amount category w = (Ok true, w') ->
  exists user_id,
    resolved_id w telegram_id = Some user_id
    /\ joined_expenses w' telegram_id
       = (joined_expenses w telegram_id ++
          [ExpenseRow user_id (adapt_text description)
             (adapt_numeric amount) (adapt_text category)
             (Some (utcnow w))])%list
    /\ (forall other, other <> telegram_id ->
        joined_expenses w' other = joined_expenses w other).
Proof.
  intros Hnd Hsave.
  destruct (save_expense_run adapt_text adapt_numeric telegram_id description
              amount category w)
    as (w2 & Hrun & Hu & _ & _ & _ & He).
  rewrite Hsave in Hrun. injection Hrun as Hb <-.
  rewrite <- Hb in He.
  symmetry in Hb. apply andb_true_iff in Hb. destruct Hb as [_ Hb].
  destruct (resolved_id w telegram_id) as [user_id|] eqn:Hid;
    [|discriminate].
  simpl in He.
  exists user_id. split; [reflexivity|].
  assert (Hjoin : forall t,
            joined_expenses w' t
            = (joined_expenses w t
               ++ map (fun _ =>
                    ExpenseRow user_id (adapt_text description)
                      (adapt_numeric amount) (adapt_text category)
                      (Some (utcnow w)))
                    (filter (fun u => Z.eqb user_id (u_id u)
                                      && String.eqb (u_telegram_id u) t)
                            (users w)))%list).
  { intros t. unfold joined_expenses. rewrite He, Hu, flat_map_app.
    simpl. rewrite app_nil_r. reflexivity. }
  split.
  - rewrite Hjoin. f_equal.
    pose proof (join_resolved (users w) user_id telegram_id telegram_id
                  Hnd Hid) as Hlen.
    rewrite String.eqb_refl in Hlen.
    destruct (filter _ (users w)) as [|u [|u' rest]]; try discriminate.
    reflexivity.
  - intros other Hother. rewrite Hjoin.
    pose proof (join_resolved (users w) user_id telegram_id other
                  Hnd Hid) as Hlen.
    destruct (String.eqb_spec telegram_id other) as [E|E];
      [congruence|].
    destruct (filter _ (users w)) as [|u rest]; try discriminate.
    simpl. apply app_nil_r.
Qed.

(** X8. When the ids of [users] are a primary key, the row that a
    successful [save_expense] adds is among the expenses of the user who
    saved it, exactly once, and among those of no other identifier. *)
Theorem saved_expense_listed_for_its_user_only
    (telegram_id other : string) (description amount category : pyval)
    (w w' : world) :
  NoDup (map u_id (users w)) ->
  save_expense telegram_id description amount category w = (Ok true, w') ->
  other <> telegram_id ->
  exists user_id,
    resolved_id w telegram_id = Some user_id
    /\ joined_expenses w' telegram_id
       = (joined_expenses w telegram_id ++
          [ExpenseRow user_id (adapt_text description)
             (adapt_numeric amount) (adapt_text category)
             (Some (utcnow w))])%list
    /\ joined_expenses w' other = joined_expenses w other.
Proof.
  intros Hnd Hsave Hother.
  destruct (save_expense_joined telegram_id description amount category
              w w' Hnd Hsave) as (user_id & Hid & Hjoin & Hiso).
  exists user_id. split; [exact Hid|]. split; [exact Hjoin|].
  apply Hiso. exact Hother.
Qed.

(** X9. After a successful save, when the user's earlier expenses are
    older than the clock and no round trip fails, the saved expense is the
    first item that [get_user_expenses] lists, with the stored fields and
    the amount read back as a float, and [get_expense_stats] counts one
    expense more than the user had. *)
Theorem saved_expense_is_read_back
    (telegram_id : string) (description amount category : pyval)
    (limit : Z) (w w' : world) :
  NoDup (map u_id (users w)) ->
  (forall e, e ∈ joined_expenses w telegram_id ->
             exists t, e_added_at e = Some t /\ t < utcnow w) ->
  save_expense telegram_id description amount category w = (Ok true, w') ->
  faulty 2 w' = false ->
  1 <= limit ->
  exists items st w1 w2,
    get_user_expenses telegram_id limit w' = (Ok items, w1)
    /\ head items
       = Some (ExpenseItem (adapt_text description)
                 (float_of_numeric (adapt_numeric amount))
                 (adapt_text category) (Some (utcnow w)))
    /\ get_expense_stats telegram_id w' = (Ok st, w2)
    /\ total_expenses st
       = Z.of_nat (length (joined_expenses w telegram_id)) + 1.
Proof.
  intros Hnd Hold Hsave Hf Hl.
  destruct (save_expense_joined telegram_id description amount category
              w w' Hnd Hsave) as (user_id & _ & Hjoin & _).
  destruct (get_user_expenses_run telegram_id limit w' Hf) as (w1 & Hlist);
    [lia|].
  destruct (get_expense_stats_run telegram_id w' Hf) as (w2 & Hstats).
  do 2 eexists. exists w1, w2.
  split; [exact Hlist|]. split; [|split; [exact Hstats|]].
  - unfold SELECT_EXPENSES. rewrite Hjoin.
    rewrite (take_S_head (Z.to_nat limit)) by lia.
    rewrite (newest_row_first (joined_expenses w telegram_id)
               (ExpenseRow user_id (adapt_text description)
                  (adapt_numeric amount) (adapt_text category)
                  (Some (utcnow w)))
               (utcnow w) eq_refl Hold).
    reflexivity.
  - destruct (fold_left_stats_step (SELECT_STATS w' telegram_id) empty_stats)
      as [Hcount _].
    rewrite Hcount, SELECT_STATS_counts, Hjoin, length_app. simpl. lia.
Qed.

End ReadBack.

(** ** The read paths on their own *)

Lemma get_user_expenses_cases (telegram_id : string) (limit : Z) (w : world) :
  exists w',
    get_user_expenses telegram_id limit w
    = (Ok (if faulty 2 w || (limit <? 0)%Z then []
           else map item_of_row (SELECT_EXPENSES w telegram_id limit)), w')
    /\ users w' = users w /\ expenses w' = expenses w.
Proof.
  unfold get_user_expenses, try_except, bind, engine_connect,
    execute_SELECT_EXPENSES, db_round_trip, get_world, ret, lift, faulty.
  destruct w as [us es fs now l calls].
  destruct fs as [|[|] [|[|] fs]]; simpl;
    try (eexists; split; [reflexivity|split; reflexivity]);
    destruct (limit <? 0)%Z; simpl; rewrite ?fold_left_items;
    eexists; (split; [reflexivity|split; reflexivity]).
Qed.

(** X10. [get_user_expenses] raises nothing and leaves the tables as they
    were.  It returns the empty list when a round trip fails and when the
    limit is negative; otherwise at most [limit] items, each an expense of
    the user, the most recent first. *)
Theorem get_user_expenses_bounded_recent_first
    (telegram_id : string) (limit : Z) (w : world) :
  exists items w',
    get_user_expenses telegram_id limit w = (Ok items, w')
    /\ users w' = users w /\ expenses w' = expenses w
    /\ (faulty 2 w = true \/ limit < 0 -> items = [])
    /\ (0 <= limit -> Z.of_nat (length items) <= limit)
    /\ StronglySorted recent_first items
    /\ (forall item, item ∈ items ->
        exists row, row ∈ joined_expenses w telegram_id
                    /\ item = item_of_row row).
Proof.
  destruct (get_user_expenses_cases telegram_id limit w)
    as (w' & Hrun & Hu & He).
  eexists; exists w'. split; [exact Hrun|].
  split; [exact Hu|]. split; [exact He|].
  destruct (faulty 2 w || (limit <? 0)%Z) eqn:Hbad.
  - repeat split; try reflexivity.
    + simpl. lia.
    + constructor.
    + intros item Hin. apply elem_of_nil in Hin. contradiction.
  - apply orb_false_iff in Hbad. destruct Hbad as [Hf Hl].
    apply Z.ltb_ge in Hl.
    repeat split.
    + intros [H|H]; [congruence|lia].
    + intros _. rewrite length_map. unfold SELECT_EXPENSES.
      rewrite length_take. lia.
    + unfold SELECT_EXPENSES.
      apply (StronglySorted_fmap item_of_row added_at_desc recent_first).
      * intros x y. unfold added_at_desc, recent_first. simpl. tauto.
      * apply StronglySorted_app_1_l
          with (l2 := drop (Z.to_nat limit)
                        (merge_sort added_at_desc
                           (joined_expenses w telegram_id))).
        rewrite take_drop. apply StronglySorted_merge_sort; apply _.
    + intros item Hin. apply list_elem_of_fmap in Hin.
      destruct Hin as (row & -> & Hrow).
      exists row. split; [|reflexivity].
      unfold SELECT_EXPENSES in Hrow.
      apply subseteq_take in Hrow.
      rewrite merge_sort_Permutation in Hrow. exact Hrow.
Qed.

Lemma get_expense_stats_cases (telegram_id : string) (w : world) :
  exists w',
    get_expense_stats telegram_id w
    = (Ok (if faulty 2 w then empty_stats
           else fold_left stats_step (SELECT_STATS w telegram_id)
                          empty_stats), w')
    /\ users w' = users w /\ expenses w' = expenses w.
Proof.
  unfold get_expense_stats, try_except, bind, engine_connect,
    execute_SELECT_STATS, db_round_trip, get_world, ret, faulty.
  destruct w as [us es fs now l calls].
  destruct fs as [|[|] [|[|] fs]]; simpl;
    eexists; (split; [reflexivity|split; reflexivity]).
Qed.

(** X11. [get_expense_stats] raises nothing and leaves the tables as they
    were; when a round trip fails and when the user has no expense it
    returns the zero statistics with no category. *)
Theorem get_expense_stats_zero (telegram_id : string) (w : world) :
  exists st w',
    get_expense_stats telegram_id w = (Ok st, w')
    /\ users w' = users w /\ expenses w' = expenses w
    /\ (faulty 2 w = true \/ joined_expenses w telegram_id = [] ->
        st = empty_stats).
Proof.
  destruct (get_expense_stats_cases telegram_id w) as (w' & Hrun & Hu & He).
  eexists; exists w'. split; [exact Hrun|].
  split; [exact Hu|]. split; [exact He|].
  intros [Hf|Hnone].
  - rewrite Hf. reflexivity.
  - destruct (faulty 2 w); [reflexivity|].
    unfold SELECT_STATS. rewrite Hnone. reflexivity.
Qed.

Lemma categories_fold_other (rows : list stats_row) (st : stats)
    (c : option string) :
  c ∉ map sr_category rows ->
  categories (fold_left stats_step rows st) !! c = categories st !! c.
Proof.
  revert st. induction rows as [|row rows IH]; intros st Hc; simpl.
  - reflexivity.
  - simpl in Hc. apply not_elem_of_cons in Hc. destruct Hc as [Hne Hc].
    rewrite (IH _ Hc). simpl. apply lookup_insert_ne. congruence.
Qed.

Lemma categories_fold_row (rows : list stats_row) (st : stats)
    (row : stats_row) :
  NoDup (map sr_category rows) -> row ∈ rows ->
  categories (fold_left stats_step rows st) !! sr_category row
  = Some (CategoryStats (sr_count row) (row_total row)).
Proof.
  revert st. induction rows as [|r rows IH]; intros st Hnd Hin.
  - apply elem_of_nil in Hin. contradiction.
  - simpl in Hnd. apply NoDup_cons in Hnd. destruct Hnd as [Hr Hnd].
    apply elem_of_cons in Hin. destruct Hin as [->|Hin]; simpl.
    + rewrite (categories_fold_other _ _ _ Hr). simpl.
      apply lookup_insert_eq.
    + apply IH; assumption.
Qed.

Lemma group_by_category_rows (rows : list expense_row) :
  group_by_category rows
  = map (fun c => category_row c rows) (remove_dups (map e_category rows)).
Proof. reflexivity. Qed.

(** X12. When no round trip fails, the [categories] dict of
    [get_expense_stats] has an entry exactly for the categories of the
    user's expenses, and the entry of a category holds the number of the
    user's expenses of that category and the float of their exact sum. *)
Theorem get_expense_stats_categories (telegram_id : string) (w : world)
    (c : option string) :
  faulty 2 w = false ->
  exists st w',
    get_expense_stats telegram_id w = (Ok st, w')
    /\ categories st !! c
       = if bool_decide (c ∈ map e_category (joined_expenses w telegram_id))
         then
           let row := category_row c (joined_expenses w telegram_id) in
           Some (CategoryStats (sr_count row) (row_total row))
         else None.
Proof.
  intros Hf.
  destruct (get_expense_stats_cases telegram_id w) as (w' & Hrun & _).
  rewrite Hf in Hrun.
  eexists; exists w'. split; [exact Hrun|].
  set (rows := joined_expenses w telegram_id).
  assert (Hperm : SELECT_STATS w telegram_id ≡ₚ group_by_category rows)
    by apply merge_sort_Permutation.
  assert (Hcats : map sr_category (group_by_category rows)
                  = remove_dups (map e_category rows)).
  { rewrite group_by_category_rows, map_map. simpl. apply map_id. }
  assert (Hnd : NoDup (map sr_category (SELECT_STATS w telegram_id))).
  { rewrite (Permutation_map sr_category Hperm), Hcats.
    apply NoDup_remove_dups. }
  destruct (bool_decide (c ∈ map e_category rows)) eqn:Hc.
  - apply bool_decide_eq_true in Hc.
    assert (Hin : category_row c rows ∈ SELECT_STATS w telegram_id).
    { rewrite Hperm, group_by_category_rows.
      apply (list_elem_of_fmap_2 (fun c => category_row c rows)).
      apply elem_of_remove_dups. exact Hc. }
    apply (categories_fold_row _ empty_stats _ Hnd Hin).
  - apply bool_decide_eq_false in Hc.
    rewrite categories_fold_other; [reflexivity|].
    rewrite (Permutation_map sr_category Hperm), Hcats.
    rewrite elem_of_remove_dups. exact Hc.
Qed.

(** ** The further properties at concrete worlds *)

Lemma save_pizza_in_world_two_expenses :
  save_expense text_of numeric_of "42" (PyStr "Pizza")
    (PyFloat (S754_finite false 5629499534213120 (-48))) (PyStr "Food")
    world_two_expenses
  = (Ok true, world_three_expenses).
Proof. vm_compute. reflexivity. Qed.

(** [saved_expense_listed_for_its_user_only] for the pizza that the user
    ["42"] saves, seen from the identifier ["999999999"]. *)
Lemma saved_expense_listed_for_its_user_only_witness :
  exists user_id,
    resolved_id world_two_expenses "42" = Some user_id
    /\ joined_expenses world_three_expenses "42"
       = (joined_expenses world_two_expenses "42" ++
          [ExpenseRow user_id (text_of (PyStr "Pizza"))
             (numeric_of
                (PyFloat (S754_finite false 5629499534213120 (-48))))
             (text_of (PyStr "Food"))
             (Some (utcnow world_two_expenses))])%list
    /\ joined_expenses world_three_expenses "999999999"
       = joined_expenses world_two_expenses "999999999".
Proof.
  apply (saved_expense_listed_for_its_user_only text_of numeric_of
           "42" "999999999" (PyStr "Pizza")
           (PyFloat (S754_finite false 5629499534213120 (-48)))
           (PyStr "Food") world_two_expenses world_three_expenses).
  - simpl. apply NoDup_singleton.
  - exact save_pizza_in_world_two_expenses.
  - discriminate.
Defined.

(** [saved_expense_is_read_back] for the same pizza, with the limit 10. *)
Lemma saved_expense_is_read_back_witness :
  exists items st w1 w2,
    get_user_expenses "42" 10 world_three_expenses = (Ok items, w1)
    /\ head items
       = Some (ExpenseItem (text_of (PyStr "Pizza"))
                 (float_of_numeric
                    (numeric_of
                       (PyFloat (S754_finite false 5629499534213120 (-48)))))
                 (text_of (PyStr "Food"))
                 (Some (utcnow world_two_expenses)))
    /\ get_expense_stats "42" world_three_expenses = (Ok st, w2)
    /\ total_expenses st
       = Z.of_nat (length (joined_expenses world_two_expenses "42")) + 1.
Proof.
  apply (saved_expense_is_read_back text_of numeric_of "42" (PyStr "Pizza")
           (PyFloat (S754_finite false 5629499534213120 (-48)))
           (PyStr "Food") 10 world_two_expenses world_three_expenses).
  - simpl. apply NoDup_singleton.
  - intros e He. vm_compute in He.
    apply elem_of_cons in He. destruct He as [->|He].
    { exists 1700000000. split; reflexivity. }
    apply elem_of_cons in He. destruct He as [->|He].
    { exists 1700000060. split; reflexivity. }
    apply elem_of_nil in He. contradiction.
  - exact save_pizza_in_world_two_expenses.
  - reflexivity.
  - lia.
Defined.

(** [get_expense_stats_categories] for the category ["Food"] of the two
    expenses of the user ["42"]. *)
Lemma get_expense_stats_categories_witness :
  exists st w',
    get_expense_stats "42" world_two_expenses = (Ok st, w')
    /\ categories st !! Some "Food"
       = if bool_decide
              (Some "Food"
               ∈ map e_category (joined_expenses world_two_expenses "42"))
         then
           let row :=
             category_row (Some "Food")
               (joined_expenses world_two_expenses "42") in
           Some (CategoryStats (sr_count row) (row_total row))
         else None.
Proof.
  apply (get_expense_stats_categories "42" world_two_expenses (Some "Food")).
  reflexivity.
Defined.

(** ** The connector *)

Section ConnectorProperties.

Import Connector.

Variable validate : pydict -> outcome BotServiceResponse.

Abbreviation forward_to_bot_service := (forward_to_bot_service validate).
Abbreviation handle_telegram_message := (handle_telegram_message validate).
Abbreviation telegram_webhook := (telegram_webhook validate).

Lemma forward_to_bot_service_done (telegram_id message : string) (n : net) :
  exists r,
    forward_to_bot_service telegram_id message n
    = (Done r, posted telegram_id message n).
Proof.
  unfold Connector.forward_to_bot_service, cbind, client_post, clift, cret.
  destruct (bot_service n telegram_id message) as [response|e].
  - destruct (Z.eqb (status_code response) 200).
    + destruct (json response) as [result|e].
      * destruct (BotServiceResponse_of validate result) as [r0|e];
          [eauto|destruct (is_RequestError e); eauto].
      * destruct (is_RequestError e); eauto.
    + eauto.
  - destruct (is_RequestError e); eauto.
Qed.

Lemma send_telegram_response_run (chat_id : Z) (text : string) (n : net) :
  send_telegram_response chat_id text n
  = (Done (match telegram n chat_id text with
           | Done _ => true
           | Raised _ => false
           end), replied chat_id text n).
Proof.
  unfold send_telegram_response, cbind, bot_send_message, cret.
  destruct (telegram n chat_id text); reflexivity.
Qed.

(** X14. [forward_to_bot_service] raises nothing and makes exactly one
    request.  It answers with the response of the Bot Service when the
    status is 200 and the body passes the validation; with "Error
    processing expense" on another status; with "Service temporarily
    unavailable" when the request raises [httpx.RequestError]; and with
    "Internal server error" on any other exception, of the request, of
    the decoding of the body or of the validation. *)
Theorem forward_to_bot_service_never_raises
    (telegram_id message : string) (n : net) :
  exists r,
    forward_to_bot_service telegram_id message n
    = (Done r, posted telegram_id message n)
    /\ (forall e, bot_service n telegram_id message = Raised e ->
        r = failed (if is_RequestError e
                    then "Service temporarily unavailable"
                    else "Internal server error"))
    /\ (forall response,
        bot_service n telegram_id message = Done response ->
        status_code response <> 200 ->
        r = failed "Error processing expense")
    /\ (forall response e,
        bot_service n telegram_id message = Done response ->
        status_code response = 200 ->
        json response = Raised e \/
        (exists result, json response = Done result
                        /\ BotServiceResponse_of validate result = Raised e) ->
        r = failed (if is_RequestError e
                    then "Service temporarily unavailable"
                    else "Internal server error"))
    /\ (forall response result r0,
        bot_service n telegram_id message = Done response ->
        status_code response = 200 ->
        json response = Done result ->
        BotServiceResponse_of validate result = Done r0 ->
        r = r0).
Proof.
  unfold Connector.forward_to_bot_service, cbind, client_post, clift, cret.
  destruct (bot_service n telegram_id message) as [response|e] eqn:Hpost.
  - destruct (Z.eqb_spec (status_code response) 200) as [Hs|Hs].
    + destruct (json response) as [result|e] eqn:Hjson.
      * destruct (BotServiceResponse_of validate result) as [r0|e] eqn:Hv.
        -- exists r0. split; [reflexivity|].
           repeat split; try discriminate.
           ++ intros resp [= <-] Hne. contradiction.
           ++ intros resp e [= <-] _ [H|(res & H1 & H2)]; congruence.
           ++ intros resp res r1 [= <-] _ H1 H2. congruence.
        -- exists (failed (if is_RequestError e
                           then "Service temporarily unavailable"
                           else "Internal server error")).
           split; [destruct (is_RequestError e); reflexivity|].
           repeat split; try discriminate.
           ++ intros resp [= <-] Hne. contradiction.
           ++ intros resp e' [= <-] _ [H|(res & H1 & H2)]; [congruence|].
              rewrite Hjson in H1. injection H1 as <-.
              rewrite Hv in H2. injection H2 as <-. reflexivity.
           ++ intros resp res r1 [= <-] _ H1 H2. congruence.
      * exists (failed (if is_RequestError e
                        then "Service temporarily unavailable"
                        else "Internal server error")).
        split; [destruct (is_RequestError e); reflexivity|].
        repeat split; try discriminate.
        -- intros resp [= <-] Hne. contradiction.
        -- intros resp e' [= <-] _ [H|(res & H1 & H2)]; [|congruence].
           rewrite Hjson in H. injection H as <-. reflexivity.
        -- intros resp res r1 [= <-] _ H1 H2. congruence.
    + eexists. split; [reflexivity|].
      repeat split; try discriminate.
      * intros resp e [= <-] Heq. contradiction.
      * intros resp res r1 [= <-] Heq. contradiction.
  - exists (failed (if is_RequestError e
                    then "Service temporarily unavailable"
                    else "Internal server error")).
    split; [destruct (is_RequestError e); reflexivity|].
    repeat split; try discriminate.
    intros e' [= <-]. reflexivity.
Qed.

(** X15. For an update without a message, or with a message whose text is
    absent or empty, [handle_telegram_message] makes no request and sends
    nothing.  For any other update it makes exactly one request to the Bot
    Service, with the sender's id as a decimal text (or "unknown") and the
    stripped text, then calls [bot.send_message] exactly once, for the chat
    of the message and with the [message] of the answer; a failure of the
    sending is not raised. *)
Theorem handle_telegram_message_replies_once (update : Update) (n : net) :
  (update_message update = None ->
   handle_telegram_message (Some update) n = (Done tt, n))
  /\ (forall message,
        update_message update = Some message ->
        msg_text message = None \/ msg_text message = Some "" ->
        handle_telegram_message (Some update) n = (Done tt, n))
  /\ (forall message text,
        update_message update = Some message ->
        msg_text message = Some text ->
        text <> "" ->
        exists r,
          forward_to_bot_service (sender message) (strip text) n
          = (Done r, posted (sender message) (strip text) n)
          /\ handle_telegram_message (Some update) n
             = (Done tt,
                replied (msg_chat_id message) (resp_message r)
                  (posted (sender message) (strip text) n))).
Proof.
  split; [|split].
  - intros Hm. unfold Connector.handle_telegram_message. rewrite Hm.
    reflexivity.
  - intros message Hm [Ht|Ht]; unfold Connector.handle_telegram_message;
      rewrite Hm, Ht; reflexivity.
  - intros message text Hm Ht Hne.
    destruct (forward_to_bot_service_done (sender message) (strip text) n)
      as (r & Hfwd).
    exists r. split; [exact Hfwd|].
    unfold Connector.handle_telegram_message. rewrite Hm, Ht.
    apply String.eqb_neq in Hne. rewrite Hne.
    unfold cbind at 1. rewrite Hfwd.
    unfold cbind. rewrite send_telegram_response_run. reflexivity.
Qed.

Lemma handle_telegram_message_done (update : Update) (n : net) :
  exists n',
    handle_telegram_message (Some update) n = (Done tt, n')
    /\ bot_service n' = bot_service n /\ telegram n' = telegram n.
Proof.
  unfold Connector.handle_telegram_message.
  destruct (update_message update) as [message|]; [|exists n; auto].
  destruct (msg_text message) as [text|]; [|exists n; auto].
  destruct (String.eqb text ""); [exists n; auto|].
  destruct (forward_to_bot_service_done (sender message) (strip text) n)
    as (r & Hfwd).
  unfold cbind at 1. rewrite Hfwd.
  unfold cbind. rewrite send_telegram_response_run.
  eexists. split; [reflexivity|]. split; reflexivity.
Qed.

(** X16. [telegram_webhook] answers [ok] for every body that parses to an
    update, whatever the Bot Service and Telegram do with the request and
    the reply; it raises [HTTPException] with status 500 exactly when the
    body does not parse or parses to no update. *)
Theorem telegram_webhook_acknowledges
    (parsed : outcome (option Update)) (n : net) :
  (forall update,
     parsed = Done (Some update) ->
     exists n', telegram_webhook parsed n = (Done "ok", n'))
  /\ ((parsed = Done None \/ exists e, parsed = Raised e) ->
      telegram_webhook parsed n = (Raised (HTTPException 500), n))
  /\ (forall e n',
        telegram_webhook parsed n = (Raised e, n') ->
        e = HTTPException 500
        /\ (parsed = Done None \/ exists e', parsed = Raised e')).
Proof.
  split; [|split].
  - intros update ->.
    unfold Connector.telegram_webhook, cbind at 1, clift.
    destruct (handle_telegram_message_done update n) as (n' & Hh & _).
    unfold cbind. rewrite Hh. exists n'. reflexivity.
  - intros [->|(e & ->)]; reflexivity.
  - intros e n' H.
    destruct parsed as [[update|]|e'].
    + unfold Connector.telegram_webhook, cbind at 1, clift in H.
      destruct (handle_telegram_message_done update n) as (n2 & Hh & _).
      unfold cbind in H. rewrite Hh in H. discriminate.
    + injection H as <- <-. split; [reflexivity|left; reflexivity].
    + injection H as <- <-. split; [reflexivity|right; eauto].
Qed.

End ConnectorProperties.

(** ** The setup of the model *)

Section SetupProperties.

Import SetupOllama.

Lemma waited_0 (h : host) : waited 0 h = h.
Proof.
  destruct h as [t g p ps sl]. unfold waited. simpl.
  f_equal; lia.
Qed.

Lemma ready_now_passed (h : host) :
  is_passed (tags h (gets h)) = true ->
  ready_now h = (Done false, asked_tags h).
Proof.
  unfold ready_now, requests_get_tags, is_passed. fold (asked_tags h).
  destruct (tags h (gets h)) as [response|e]; intros H.
  - apply negb_true_iff in H. rewrite H. reflexivity.
  - rewrite H. reflexivity.
Qed.

(** The loop after [k] attempts that were passed over. *)
Lemma wait_loop_passed (k retries : nat) (h : host) :
  (forall i, (i < k)%nat -> is_passed (tags h (gets h + i)) = true) ->
  wait_loop (k + retries) h = wait_loop retries (waited k h).
Proof.
  revert h. induction k as [|k IH]; intros h Hp.
  - rewrite waited_0. reflexivity.
  - simpl. unfold obind at 1.
    rewrite ready_now_passed.
    2:{ specialize (Hp 0%nat). rewrite Nat.add_0_r in Hp. apply Hp. lia. }
    unfold obind at 1, time_sleep. simpl.
    rewrite IH.
    + unfold waited. simpl. f_equal. f_equal; lia.
    + intros i Hi. simpl. rewrite <- Nat.add_succ_r. apply Hp. lia.
Qed.

(** X17. When each of the [max_retries] attempts gets another status than
    200 or a [RequestException], [wait_for_ollama] returns [False] after
    exactly [max_retries] requests and ten seconds of sleep after each of
    them, the last one included; with [max_retries <= 0] it returns
    [False] at once, without a request. *)
Theorem wait_for_ollama_gives_up (max_retries : Z) (h : host) :
  (forall i, (i < Z.to_nat max_retries)%nat ->
             is_passed (tags h (gets h + i)) = true) ->
  wait_for_ollama max_retries h
  = (Done false, waited (Z.to_nat max_retries) h)
  /\ (max_retries <= 0 -> wait_for_ollama max_retries h = (Done false, h)).
Proof.
  intros Hp. split.
  - unfold wait_for_ollama.
    replace (Z.to_nat max_retries) with (Z.to_nat max_retries + 0)%nat at 1
      by lia.
    rewrite (wait_loop_passed _ 0 h Hp). reflexivity.
  - intros Hle. unfold wait_for_ollama.
    replace (Z.to_nat max_retries) with 0%nat by lia. reflexivity.
Qed.

(** X18. When the attempt number [k], below [max_retries], is the first
    that is answered 200 and the earlier ones got another status or a
    [RequestException], [wait_for_ollama] returns [True] after [k + 1]
    requests and [10 * k] seconds of sleep; it asks no more. *)
Theorem wait_for_ollama_stops_when_ready (max_retries : Z) (k : nat)
    (h : host) :
  (k < Z.to_nat max_retries)%nat ->
  (forall i, (i < k)%nat -> is_passed (tags h (gets h + i)) = true) ->
  is_ready (tags h (gets h + k)) = true ->
  wait_for_ollama max_retries h = (Done true, asked_tags (waited k h)).
Proof.
  intros Hk Hp Hr. unfold wait_for_ollama.
  replace (Z.to_nat max_retries)
    with (k + S (Z.to_nat max_retries - k - 1))%nat by lia.
  rewrite (wait_loop_passed _ _ h Hp). simpl.
  unfold obind, ready_now, requests_get_tags. simpl.
  unfold is_ready in Hr.
  destruct (tags h (gets h + k)) as [response|e]; [|discriminate].
  rewrite Hr. reflexivity.
Qed.

(** [download_model], by what the answer to the tags lists. *)
Lemma download_model_run (model_name : string) (h : host) :
  download_model model_name h
  = match lists_model (tags h (gets h)) model_name with
    | Raised _ => (Done false, asked_tags h)
    | Done true => (Done true, asked_tags h)
    | Done false =>
        (Done (is_ready (pull h model_name)),
         pulled model_name (asked_tags h))
    end.
Proof.
  unfold download_model, download_try, obind, requests_get_tags,
    requests_post_pull, olift, oret, lists_model.
  fold (asked_tags h).
  destruct (tags h (gets h)) as [response|e]; [|reflexivity].
  destruct (Z.eqb (status_code response) 200).
  - destruct (models_of response) as [models|e]; [|reflexivity].
    destruct (py_iter models) as [items|e]; [|reflexivity].
    destruct (any_named items model_name) as [[|]|e]; try reflexivity.
    simpl. fold (pulled model_name (asked_tags h)).
    destruct (pull h model_name) as [r|e]; simpl; [|reflexivity].
    destruct (Z.eqb (status_code r) 200); reflexivity.
  - simpl. fold (pulled model_name (asked_tags h)).
    destruct (pull h model_name) as [r|e]; simpl; [|reflexivity].
    destruct (Z.eqb (status_code r) 200); reflexivity.
Qed.

(** A list whose entries before a named one are dicts with other
    names. *)
Lemma any_named_found (before after : list pyval) (m : pydict)
    (model_name : string) :
  Forall (fun x =>
            exists d, x = PyDict d /\ dict_has d "name" = true
                      /\ py_eq_str (dict_get d "name" PyNone) model_name
                         = false) before ->
  dict_has m "name" = true ->
  dict_get m "name" PyNone = PyStr model_name ->
  any_named (before ++ PyDict m :: after) model_name = Done true.
Proof.
  intros Hb Hm Hn. induction Hb as [|x before (d & -> & Hd & Hne) _ IH].
  - simpl. rewrite Hm, Hn. simpl. rewrite String.eqb_refl. reflexivity.
  - simpl. rewrite Hd, Hne. exact IH.
Qed.

Lemma any_named_raises (before after : list pyval) (x : pyval) (e : sexn)
    (model_name : string) :
  Forall (fun x =>
            exists d, x = PyDict d /\ dict_has d "name" = true
                      /\ py_eq_str (dict_get d "name" PyNone) model_name
                         = false) before ->
  getitem_name x = Raised e ->
  any_named (before ++ x :: after) model_name = Raised e.
Proof.
  intros Hb Hx. induction Hb as [|y before (d & -> & Hd & Hne) _ IH].
  - simpl. rewrite Hx. reflexivity.
  - simpl. rewrite Hd, Hne. exact IH.
Qed.

(** X19. When the service answers the request of the tags with 200 and a
    list in which an entry named as the model comes before any entry
    without a name, [download_model] returns [True] after that one
    request: it pulls nothing. *)
Theorem download_model_skips_listed_model
    (model_name : string) (h : host) (response : response) (d m : pydict)
    (before after : list pyval) :
  tags h (gets h) = Done response ->
  status_code response = 200 ->
  json response = Done (PyDict d) ->
  dict_get d "models" (PyList []) = PyList (before ++ PyDict m :: after) ->
  Forall (fun x =>
            exists dx, x = PyDict dx /\ dict_has dx "name" = true
                       /\ py_eq_str (dict_get dx "name" PyNone) model_name
                          = false) before ->
  dict_has m "name" = true ->
  dict_get m "name" PyNone = PyStr model_name ->
  download_model model_name h = (Done true, asked_tags h).
Proof.
  intros Ht Hs Hj Hmodels Hb Hm Hn.
  rewrite download_model_run. unfold lists_model, models_of.
  rewrite Ht, Hs, Hj, Hmodels. simpl.
  rewrite (any_named_found before after m model_name Hb Hm Hn).
  reflexivity.
Qed.

(** X20. [download_model] raises nothing, and it gives up without a pull,
    returning [False], when the request of the tags raises, when the body
    of a 200 answer does not decode to a dict, when its [models] cannot be
    iterated, and when an entry that is not a dict with a [name] comes
    before any entry named as the model, even if the model is listed
    after it. *)
Theorem download_model_gives_up_on_bad_listing
    (model_name : string) (h : host) :
  (forall e, tags h (gets h) = Raised e ->
   download_model model_name h = (Done false, asked_tags h))
  /\ (forall response,
        tags h (gets h) = Done response ->
        status_code response = 200 ->
        (exists e, models_of response = Raised e)
        \/ (exists models e,
              models_of response = Done models
              /\ py_iter models = Raised e)
        \/ (exists before x after e,
              models_of response = Done (PyList (before ++ x :: after))
              /\ Forall (fun y =>
                    exists dy, y = PyDict dy /\ dict_has dy "name" = true
                       /\ py_eq_str (dict_get dy "name" PyNone) model_name
                          = false) before
              /\ getitem_name x = Raised e) ->
        download_model model_name h = (Done false, asked_tags h)).
Proof.
  split.
  - intros e Ht. rewrite download_model_run. unfold lists_model.
    rewrite Ht. reflexivity.
  - intros response Ht Hs Hbad.
    rewrite download_model_run. unfold lists_model. rewrite Ht, Hs. simpl.
    destruct Hbad as [(e & Hm)|[(models & e & Hm & Hi)
                                |(before & x & after & e & Hm & Hb & Hx)]].
    + rewrite Hm. reflexivity.
    + rewrite Hm, Hi. reflexivity.
    + rewrite Hm. simpl.
      rewrite (any_named_raises before after x e model_name Hb Hx).
      reflexivity.
Qed.

(** X21. [download_model] raises nothing, asks for the tags once and pulls
    at most once, the model it was given; when it pulls, it returns
    whether the pull was answered 200, and an exception of the pull gives
    [False]. *)
Theorem download_model_pulls_at_most_once (model_name : string) (h : host) :
  exists b h',
    download_model model_name h = (Done b, h')
    /\ gets h' = S (gets h) /\ slept h' = slept h
    /\ (pulls h' = pulls h
        \/ (pulls h' = model_name :: pulls h
            /\ b = is_ready (pull h model_name))).
Proof.
  rewrite download_model_run.
  destruct (lists_model (tags h (gets h)) model_name) as [[|]|e];
    do 2 eexists; (split; [reflexivity|]); simpl;
    (split; [reflexivity|]); (split; [reflexivity|]);
    first [ left; reflexivity | right; split; reflexivity ].
Qed.

(** X22. When none of the thirty attempts of [main] is answered 200,
    [main] returns [False] after thirty requests and three hundred
    seconds of sleep, and it has pulled nothing. *)
Theorem main_gives_up_without_pulling (model_name : string) (h : host) :
  (forall i, (i < 30)%nat -> is_passed (tags h (gets h + i)) = true) ->
  main model_name h = (Done false, waited 30 h)
  /\ pulls (waited 30 h) = pulls h
  /\ slept (waited 30 h) = slept h + 300.
Proof.
  intros Hp. split; [|split; reflexivity].
  unfold main, obind at 1, wait_for_ollama.
  change (Z.to_nat 30) with (30 + 0)%nat.
  rewrite (wait_loop_passed 30 0 h Hp). reflexivity.
Qed.

End SetupProperties.

(** [wait_for_ollama_gives_up] for three attempts at a service that cannot
    be reached. *)
Lemma wait_for_ollama_gives_up_witness :
  SetupOllama.wait_for_ollama 3 SetupOllama.host_down
  = (SetupOllama.Done false,
     SetupOllama.waited (Z.to_nat 3) SetupOllama.host_down)
  /\ (3 <= 0 ->
      SetupOllama.wait_for_ollama 3 SetupOllama.host_down
      = (SetupOllama.Done false, SetupOllama.host_down)).
Proof.
  apply (wait_for_ollama_gives_up 3 SetupOllama.host_down).
  intros i _. reflexivity.
Defined.

(** [wait_for_ollama_stops_when_ready] for a service that is up at the
    third attempt. *)
Lemma wait_for_ollama_stops_when_ready_witness :
  SetupOllama.wait_for_ollama 30 SetupOllama.host_up_after_two
  = (SetupOllama.Done true,
     SetupOllama.asked_tags
       (SetupOllama.waited 2 SetupOllama.host_up_after_two)).
Proof.
  apply (wait_for_ollama_stops_when_ready 30 2
           SetupOllama.host_up_after_two).
  - vm_compute. lia.
  - intros i Hi. destruct i as [|[|i]]; [reflexivity|reflexivity|lia].
  - reflexivity.
Defined.

(** [download_model_skips_listed_model] for [llama2], listed second. *)
Lemma download_model_skips_listed_model_witness :
  SetupOllama.download_model "llama2"
    (SetupOllama.waited 2 SetupOllama.host_up_after_two)
  = (SetupOllama.Done true,
     SetupOllama.asked_tags
       (SetupOllama.waited 2 SetupOllama.host_up_after_two)).
Proof.
  apply (download_model_skips_listed_model "llama2"
           (SetupOllama.waited 2 SetupOllama.host_up_after_two)
           (SetupOllama.MkResponse 200
              (SetupOllama.Done
                 (PyDict [("models",
                           PyList [PyDict [("name", PyStr "mistral")];
                                   PyDict [("name", PyStr "llama2")]])])))
           [("models", PyList [PyDict [("name", PyStr "mistral")];
                               PyDict [("name", PyStr "llama2")]])]
           [("name", PyStr "llama2")]
           [PyDict [("name", PyStr "mistral")]] []).
  - reflexivity.
  - reflexivity.
  - reflexivity.
  - reflexivity.
  - constructor; [|constructor].
    exists [("name", PyStr "mistral")]. repeat split.
  - reflexivity.
  - reflexivity.
Defined.

(** [main_gives_up_without_pulling] for a service that cannot be
    reached. *)
Lemma main_gives_up_without_pulling_witness :
  SetupOllama.main "llama2" SetupOllama.host_down
  = (SetupOllama.Done false, SetupOllama.waited 30 SetupOllama.host_down)
  /\ SetupOllama.pulls (SetupOllama.waited 30 SetupOllama.host_down)
     = SetupOllama.pulls SetupOllama.host_down
  /\ SetupOllama.slept (SetupOllama.waited 30 SetupOllama.host_down)
     = SetupOllama.slept SetupOllama.host_down + 300.
Proof.
  apply (main_gives_up_without_pulling "llama2" SetupOllama.host_down).
  intros i _. reflexivity.
Defined.

(** ** The environment files *)

Section EnvFilesProperties.

Import EnvFiles.

(** One block of [create_env_files]: the copy of [example] to [path] when
    [path] is missing and [example] is there. *)
Lemma copy_if_missing_lookup (example path other : string) (fs : files) :
  (if negb (path_exists path fs) then
     if path_exists example fs then shutil_copy example path fs else fs
   else fs) !! other
  = if bool_decide (other = path) then
      match fs !! path with
      | Some content => Some content
      | None => fs !! example
      end
    else fs !! other.
Proof.
  unfold path_exists, shutil_copy.
  destruct (fs !! path) as [content|] eqn:Hp;
    destruct (fs !! example) as [content'|] eqn:He; cbn;
    case_bool_decide as Ho; subst; try assumption; try reflexivity.
  - apply lookup_insert_eq.
  - rewrite lookup_insert_ne by congruence. reflexivity.
Qed.

(** Every file after [create_env_files]. *)
Lemma create_env_files_lookup (fs : files) (path : string) :
  create_env_files fs !! path
  = if bool_decide (path = "connector-service/.env") then
      match fs !! "connector-service/.env" with
      | Some content => Some content
      | None => fs !! "connector-service/env.example"
      end
    else if bool_decide (path = "bot-service/.env") then
      match fs !! "bot-service/.env" with
      | Some content => Some content
      | None => fs !! "bot-service/env.example"
      end
    else fs !! path.
Proof.
  unfold create_env_files. cbv zeta.
  rewrite copy_if_missing_lookup.
  case_bool_decide as Hc.
  - rewrite !copy_if_missing_lookup.
    rewrite (bool_decide_eq_false_2
               ("connector-service/.env" = "bot-service/.env"))
      by discriminate.
    rewrite (bool_decide_eq_false_2
               ("connector-service/env.example" = "bot-service/.env"))
      by discriminate.
    reflexivity.
  - apply copy_if_missing_lookup.
Qed.

(** X23. [create_env_files] changes no file that exists: an environment
    file that is there is not overwritten, and the examples are not
    touched.  The only files it can add are the two environment files,
    each as a copy of its example. *)
Theorem create_env_files_keeps_existing_files (fs : files) (path : string) :
  (forall content,
     fs !! path = Some content ->
     create_env_files fs !! path = Some content)
  /\ (fs !! path = None ->
      forall content,
        create_env_files fs !! path = Some content ->
        (path = "bot-service/.env"
         /\ fs !! "bot-service/env.example" = Some content)
        \/ (path = "connector-service/.env"
            /\ fs !! "connector-service/env.example" = Some content)).
Proof.
  rewrite create_env_files_lookup. split.
  - intros content Hp.
    repeat case_bool_decide; subst; rewrite ?Hp; try reflexivity; exact Hp.
  - intros Hp content.
    repeat case_bool_decide; subst; rewrite ?Hp; intros Hres.
    + right. split; [reflexivity|exact Hres].
    + left. split; [reflexivity|exact Hres].
    + congruence.
Qed.

(** X24. Running [create_env_files] again changes nothing. *)
Theorem create_env_files_idempotent (fs : files) :
  create_env_files (create_env_files fs) = create_env_files fs.
Proof.
  apply map_eq. intros path.
  rewrite (create_env_files_lookup (create_env_files fs)).
  rewrite !(create_env_files_lookup fs).
  rewrite (bool_decide_eq_true_2
             ("connector-service/.env" = "connector-service/.env"))
    by reflexivity.
  rewrite (bool_decide_eq_false_2
             ("connector-service/env.example" = "connector-service/.env"))
    by discriminate.
  rewrite (bool_decide_eq_false_2
             ("connector-service/env.example" = "bot-service/.env"))
    by discriminate.
  rewrite (bool_decide_eq_false_2
             ("bot-service/.env" = "connector-service/.env"))
    by discriminate.
  rewrite (bool_decide_eq_true_2 ("bot-service/.env" = "bot-service/.env"))
    by reflexivity.
  rewrite (bool_decide_eq_false_2
             ("bot-service/env.example" = "connector-service/.env"))
    by discriminate.
  rewrite (bool_decide_eq_false_2
             ("bot-service/env.example" = "bot-service/.env"))
    by discriminate.
  repeat case_bool_decide; try reflexivity.
  - destruct (fs !! "connector-service/.env") as [c|]; [reflexivity|].
    destruct (fs !! "connector-service/env.example"); reflexivity.
  - destruct (fs !! "bot-service/.env") as [c|]; [reflexivity|].
    destruct (fs !! "bot-service/env.example"); reflexivity.
Qed.

End EnvFilesProperties.
